(** * LastDrop API: retailer authentication, sessions and order ownership

    A shallow embedding of [src/main.py] and [src/schemas.py].

    - Text the program only compares, searches or stores is held as its
      UTF-8 bytes ([String.string]); the header and identifier handling only
      looks at ASCII characters.  Text the program encodes (a password) or
      cuts by characters (an error text) is a sequence of code points
      ([Py.str]).
    - A Python [float] is the rational it denotes ([Q]); comparisons are
      exact, and the one float addition of the program is rounded to
      binary64 ([Float.add]).
    - A MongoDB document is a [gmap string value] of fields together with its
      [_id]; a collection is the list of its documents in insertion order;
      the database maps collection names to collections.
    - The values the program draws from its environment (the clock, the
      random token of [secrets.token_urlsafe], the identifier the driver
      generates for an inserted document) are explicit arguments.
    - The module-level handle [db] is an [option Database]: [None] when the
      service has no database, [Some d] for a [pymongo] database [d].  The
      truth value of such a database is not defined: [bool(db)] raises
      [NotImplementedError]. *)

From Stdlib Require Import ZArith NArith QArith Qround Qabs Qpower Lia Lqa.
From Stdlib Require Import Strings.String Strings.Ascii Strings.Byte Lists.List.
From stdpp Require Import base option list gmap strings.

Local Open Scope string_scope.

(** ** Python string primitives used by the program *)

Module Py.

(** [c.lower()] on an ASCII character. *)
Definition lower_ascii (c : ascii) : ascii :=
  let n := N_of_ascii c in
  if ((65 <=? n) && (n <=? 90))%N then ascii_of_N (n + 32) else c.

(** [s.lower()]. *)
Fixpoint lower (s : string) : string :=
  match s with
  | EmptyString => EmptyString
  | String c s' => String (lower_ascii c) (lower s')
  end.

(** [s.startswith(p)]. *)
Fixpoint startswith (s p : string) {struct p} : bool :=
  match p, s with
  | EmptyString, _ => true
  | String _ _, EmptyString => false
  | String c p', String c' s' => Ascii.eqb c' c && startswith s' p'
  end.

(** [s.split(sep, 1)] for a one-character separator: the text before the
    first separator and, when there is one, the text after it. *)
Fixpoint split1 (sep : ascii) (s : string) : string * option string :=
  match s with
  | EmptyString => (EmptyString, None)
  | String c s' =>
      if Ascii.eqb c sep then (EmptyString, Some s')
      else let '(hd, tl) := split1 sep s' in (String c hd, tl)
  end.

(** Truth value of an [Optional[str]]: [None] and the empty string are
    false. *)
Definition truthy (o : option string) : bool :=
  match o with
  | None => false
  | Some s => negb (String.eqb s "")
  end.

(** A Python [str] where its characters matter: its code points. *)
Definition str := list N.

(** The code points of an ASCII literal. *)
Definition text (s : string) : str := map N_of_ascii (list_ascii_of_string s).

(** The UTF-8 bytes of a code point; [None] for a surrogate (U+D800 to
    U+DFFF), and for a number that is no code point. *)
Definition utf8 (c : N) : option (list N) :=
  if (c <? 0x80)%N then Some [c]
  else if (c <? 0x800)%N then Some [0xC0 + c / 64; 0x80 + c mod 64]%N
  else if (c <? 0x10000)%N then
    if ((0xD800 <=? c) && (c <? 0xE000))%N then None
    else Some [0xE0 + c / 4096; 0x80 + (c / 64) mod 64; 0x80 + c mod 64]%N
  else if (c <? 0x110000)%N then
    Some [0xF0 + c / 262144; 0x80 + (c / 4096) mod 64;
          0x80 + (c / 64) mod 64; 0x80 + c mod 64]%N
  else None.

(** [s.encode()]; [None] stands for [UnicodeEncodeError]. *)
Fixpoint encode (s : str) : option string :=
  match s with
  | [] => Some EmptyString
  | c :: s' =>
      match utf8 c, encode s' with
      | Some bs, Some r => Some (string_of_list_ascii (map ascii_of_N bs) ++ r)
      | _, _ => None
      end
  end.

(** The numbers a [str] holds are code points: below U+110000. *)
Definition code_points (s : str) : Prop := Forall (fun c => (c < 0x110000)%N) s.

(** A surrogate code point. *)
Definition surrogate (c : N) : Prop := (0xD800 <= c <= 0xDFFF)%N.

End Py.

(** ** Hexadecimal text ([binascii.hexlify], [bytes.fromhex]) *)

Module Hex.

Definition digit (n : N) : ascii :=
  if (n <? 10)%N then ascii_of_N (48 + n) else ascii_of_N (87 + n).

(** Value of a hexadecimal digit, upper or lower case. *)
Definition value (c : ascii) : option N :=
  let n := N_of_ascii c in
  if ((48 <=? n) && (n <=? 57))%N then Some (n - 48)%N
  else if ((97 <=? n) && (n <=? 102))%N then Some (n - 87)%N
  else if ((65 <=? n) && (n <=? 70))%N then Some (n - 55)%N
  else None.

Definition is_lower_digit (c : ascii) : bool :=
  let n := N_of_ascii c in
  (((48 <=? n) && (n <=? 57)) || ((97 <=? n) && (n <=? 102)))%N.

Definition of_byte (b : byte) : string :=
  let n := Byte.to_N b in
  String (digit (n / 16)) (String (digit (n mod 16)) EmptyString).

Definition to_byte (hi lo : ascii) : option byte :=
  match value hi, value lo with
  | Some h, Some l => Byte.of_N (16 * h + l)
  | _, _ => None
  end.

Fixpoint hexlify (l : list byte) : string :=
  match l with
  | [] => EmptyString
  | b :: l' => of_byte b ++ hexlify l'
  end.

(** ASCII white space: space, [\t], [\n], [\v], [\f], [\r]. *)
Definition is_space (c : ascii) : bool :=
  let n := N_of_ascii c in
  ((n =? 32) || ((9 <=? n) && (n <=? 13)))%N.

(** [bytes.fromhex(s)]: pairs of digits, with white space allowed before
    each pair and at the end; [None] stands for [ValueError]. *)
Fixpoint fromhex (s : string) : option (list byte) :=
  match s with
  | EmptyString => Some []
  | String hi s1 =>
      if is_space hi then fromhex s1
      else
        match s1 with
        | String lo s' =>
            match to_byte hi lo, fromhex s' with
            | Some b, Some l => Some (b :: l)
            | _, _ => None
            end
        | EmptyString => None
        end
  end.

(** A 32-bit word as eight lower-case digits, most significant first. *)
Definition of_word32 (w : N) : string :=
  String (digit (N.shiftr w 28 mod 16)) (String (digit (N.shiftr w 24 mod 16))
  (String (digit (N.shiftr w 20 mod 16)) (String (digit (N.shiftr w 16 mod 16))
  (String (digit (N.shiftr w 12 mod 16)) (String (digit (N.shiftr w 8 mod 16))
  (String (digit (N.shiftr w 4 mod 16)) (String (digit (w mod 16))
   EmptyString))))))).

End Hex.

(** ** [hashlib.sha256] (FIPS 180-4), on 32-bit words held in [N] *)

Module Hashlib.

Definition w32 (x : N) : N := x mod 2 ^ 32.
Definition add32 (x y : N) : N := w32 (x + y).
Definition rotr (n x : N) : N :=
  w32 (N.lor (N.shiftr x n) (N.shiftl x (32 - n))).
Definition shr (n x : N) : N := N.shiftr x n.
Definition not32 (x : N) : N := N.lxor x 0xffffffff.

Definition Ch (x y z : N) : N := N.lxor (N.land x y) (N.land (not32 x) z).
Definition Maj (x y z : N) : N :=
  N.lxor (N.lxor (N.land x y) (N.land x z)) (N.land y z).
Definition Sigma0 (x : N) : N := N.lxor (N.lxor (rotr 2 x) (rotr 13 x)) (rotr 22 x).
Definition Sigma1 (x : N) : N := N.lxor (N.lxor (rotr 6 x) (rotr 11 x)) (rotr 25 x).
Definition sigma0 (x : N) : N := N.lxor (N.lxor (rotr 7 x) (rotr 18 x)) (shr 3 x).
Definition sigma1 (x : N) : N := N.lxor (N.lxor (rotr 17 x) (rotr 19 x)) (shr 10 x).

(** The round constants are the first 32 bits of the fractional parts of
    the cube roots of the first 64 primes; the initial hash value, further
    down, takes the square roots of the first 8. *)
Definition is_prime (n : N) : bool :=
  (1 <? n)%N && forallb (fun k => negb (n mod k =? 0)%N)
                  (map N.of_nat (seq 2 (N.to_nat (N.sqrt n) - 1))).

Definition primes : list N :=
  Eval vm_compute in List.filter is_prime (map N.of_nat (seq 2 310)).

(** Integer cube root, one bit at a time from bit [b - 1] down. *)
Fixpoint cbrt_bits (b : nat) (n x : N) : N :=
  match b with
  | O => x
  | S b' =>
      let y := (x + 2 ^ N.of_nat b')%N in
      cbrt_bits b' n (if (y * y * y <=? n)%N then y else x)
  end.

Definition K : list N :=
  Eval vm_compute in
    map (fun p => (cbrt_bits 36 (p * 2 ^ 96) 0 mod 2 ^ 32)%N) primes.

(** Big-endian bytes of [x], [n] of them. *)
Fixpoint be_bytes (n : nat) (x : N) : list N :=
  match n with
  | O => []
  | S n' => (N.shiftr x (8 * N.of_nat n') mod 256)%N :: be_bytes n' x
  end.

(** Message padding: a [0x80] byte, zeros up to 56 modulo 64, then the bit
    length on eight bytes. *)
Definition pad (msg : list N) : list N :=
  let len := length msg in
  let zeros := ((64 - (len + 9) mod 64) mod 64)%nat in
  msg ++ [128%N] ++ repeat 0%N zeros ++ be_bytes 8 (8 * N.of_nat len).

Fixpoint be_word (bs : list N) (acc : N) : N :=
  match bs with
  | [] => acc
  | b :: bs' => be_word bs' (acc * 256 + b)%N
  end.

(** The words of a byte sequence, four bytes each. *)
Fixpoint words (bs : list N) : list N :=
  match bs with
  | b0 :: b1 :: b2 :: b3 :: bs' => be_word [b0; b1; b2; b3] 0 :: words bs'
  | _ => []
  end.

(** Message schedule, most recent word first: [ws] holds W[t-1] .. W[0]. *)
Fixpoint schedule (n : nat) (ws : list N) : list N :=
  match n with
  | O => ws
  | S n' =>
      let w := add32 (add32 (sigma1 (nth 1 ws 0%N)) (nth 6 ws 0%N))
                     (add32 (sigma0 (nth 14 ws 0%N)) (nth 15 ws 0%N)) in
      schedule n' (w :: ws)
  end.

Record regs := Regs { ra : N; rb : N; rc : N; rd : N; re : N; rf : N; rg : N; rh : N }.

Definition round (r : regs) (kw : N * N) : regs :=
  let '(k, w) := kw in
  let t1 := add32 (add32 (add32 (add32 (rh r) (Sigma1 (re r))) (Ch (re r) (rf r) (rg r))) k) w in
  let t2 := add32 (Sigma0 (ra r)) (Maj (ra r) (rb r) (rc r)) in
  Regs (add32 t1 t2) (ra r) (rb r) (rc r) (add32 (rd r) t1) (re r) (rf r) (rg r).

Definition frac_sqrt (p : N) : N := (N.sqrt (p * 2 ^ 64) mod 2 ^ 32)%N.

Definition H0 : regs :=
  Eval vm_compute in
    Regs (frac_sqrt 2) (frac_sqrt 3) (frac_sqrt 5) (frac_sqrt 7)
         (frac_sqrt 11) (frac_sqrt 13) (frac_sqrt 17) (frac_sqrt 19).

Definition compress (h : regs) (block : list N) : regs :=
  let ws := rev (schedule 48 (rev block)) in
  let r := fold_left round (combine K ws) h in
  Regs (add32 (ra h) (ra r)) (add32 (rb h) (rb r)) (add32 (rc h) (rc r))
       (add32 (rd h) (rd r)) (add32 (re h) (re r)) (add32 (rf h) (rf r))
       (add32 (rg h) (rg r)) (add32 (rh h) (rh r)).

(** The 16-word blocks of a word sequence. *)
Fixpoint blocks (fuel : nat) (ws : list N) : list (list N) :=
  match fuel with
  | O => []
  | S fuel' =>
      match ws with
      | [] => []
      | _ => firstn 16 ws :: blocks fuel' (skipn 16 ws)
      end
  end.

Definition digest_words (msg : string) : list N :=
  let bs := pad (map N_of_ascii (list_ascii_of_string msg)) in
  let ws := words bs in
  let r := fold_left compress (blocks (length ws) ws) H0 in
  [ra r; rb r; rc r; rd r; re r; rf r; rg r; rh r].

(** [hashlib.sha256(msg).hexdigest()]. *)
Definition sha256_hexdigest (msg : string) : string :=
  let r := digest_words msg in
  Hex.of_word32 (nth 0 r 0%N) ++ Hex.of_word32 (nth 1 r 0%N) ++
  Hex.of_word32 (nth 2 r 0%N) ++ Hex.of_word32 (nth 3 r 0%N) ++
  Hex.of_word32 (nth 4 r 0%N) ++ Hex.of_word32 (nth 5 r 0%N) ++
  Hex.of_word32 (nth 6 r 0%N) ++ Hex.of_word32 (nth 7 r 0%N).

End Hashlib.

(** ** [bson.ObjectId] *)

Module Bson.

(** An identifier is twelve bytes. *)
Record ObjectId := Oid {
  o0 : byte; o1 : byte; o2 : byte; o3 : byte; o4 : byte; o5 : byte;
  o6 : byte; o7 : byte; o8 : byte; o9 : byte; o10 : byte; o11 : byte }.

Definition binary (o : ObjectId) : list byte :=
  [o0 o; o1 o; o2 o; o3 o; o4 o; o5 o; o6 o; o7 o; o8 o; o9 o; o10 o; o11 o].

(** [str(oid)]: 24 lower-case hexadecimal digits. *)
Definition str (o : ObjectId) : string := Hex.hexlify (binary o).

(** What [ObjectId(s)] holds: the bytes [bytes.fromhex(s)].  They are the
    twelve bytes of an identifier when [s] is 24 hexadecimal digits, and
    fewer when some of the 24 characters are white space. *)
Inductive made :=
  | Full (o : ObjectId)
  | Short (bs : list byte).

(** [ObjectId(s)] for a string [s]: the string must have 24 characters and
    [bytes.fromhex] must accept it; [None] stands for the exception
    [InvalidId]. *)
Definition make (s : string) : option made :=
  if Nat.eqb (String.length s) 24 then
    match Hex.fromhex s with
    | Some [y0; y1; y2; y3; y4; y5; y6; y7; y8; y9; y10; y11] =>
        Some (Full (Oid y0 y1 y2 y3 y4 y5 y6 y7 y8 y9 y10 y11))
    | Some bs => Some (Short bs)
    | None => None
    end
  else None.

(** The identifier [ObjectId(s)] is, when it is one of twelve bytes. *)
Definition of_str (s : string) : option ObjectId :=
  match make s with
  | Some (Full o) => Some o
  | _ => None
  end.

End Bson.

Abbreviation ObjectId := Bson.ObjectId.
(** ** Documents and the database *)

(** [schemas.OrderItem]. *)
Record OrderItem := {
  sku : string;
  title : string;
  qty : Z;
  price : Q }.

(** The values a document field or a query holds.  [VOidShort] is an
    [ObjectId] made from fewer than twelve bytes; no stored document has
    such an [_id]. *)
Inductive value :=
  | VNone
  | VBool (b : bool)
  | VInt (z : Z)
  | VFloat (q : Q)
  | VStr (s : string)
  | VOid (o : ObjectId)
  | VItems (l : list OrderItem)
  | VOidShort (bs : list byte).

(** [ObjectId(s)] as the value of a query. *)
Definition id_value (m : Bson.made) : value :=
  match m with
  | Bson.Full o => VOid o
  | Bson.Short bs => VOidShort bs
  end.

#[global] Instance byte_eq_dec : EqDecision byte := Byte.byte_eq_dec.
#[global] Instance Q_eq_dec : EqDecision Q.
Proof. solve_decision. Defined.
#[global] Instance ObjectId_eq_dec : EqDecision ObjectId.
Proof. solve_decision. Defined.
#[global] Instance OrderItem_eq_dec : EqDecision OrderItem.
Proof. solve_decision. Defined.
#[global] Instance value_eq_dec : EqDecision value.
Proof. solve_decision. Defined.

(** A stored document: the identifier the driver gave it and its fields. *)
Record document := Doc {
  _id : ObjectId;
  fields : gmap string value }.

(** [d.get(k)], where the key ["_id"] reads the identifier. *)
Definition get (d : document) (k : string) : option value :=
  if String.eqb k "_id" then Some (VOid (_id d)) else fields d !! k.

Abbreviation Collection := (list document).
Abbreviation Database := (gmap string (list document)).

(** *** The [pymongo] collection operations the program calls *)

Module Mongo.

(** An equality filter [{k1: v1, ...}], in the order it is written. *)
Definition filter := (list (string * value)).

Definition matches (q : filter) (d : document) : bool :=
  forallb (fun kv => bool_decide (get d kv.1 = Some kv.2)) q.

(** [coll.find(q)]. *)
Definition find (q : filter) (c : Collection) : list document :=
  List.filter (matches q) c.

(** [coll.find_one(q)]: the first match, or [None]. *)
Fixpoint find_one (q : filter) (c : Collection) : option document :=
  match c with
  | [] => None
  | d :: c' => if matches q d then Some d else find_one q c'
  end.

(** [coll.insert_one(data)] with [oid] the identifier given to the new
    document. *)
Definition insert_one (oid : ObjectId) (data : gmap string value)
    (c : Collection) : Collection :=
  c ++ [Doc oid data].

(** [coll.update_one(q, {"$set": upd})]: the fields of [upd] overwrite those
    of the first match; without a match nothing changes. *)
Fixpoint update_one (q : filter) (upd : gmap string value)
    (c : Collection) : Collection :=
  match c with
  | [] => []
  | d :: c' =>
      if matches q d then Doc (_id d) (upd ∪ fields d) :: c'
      else d :: update_one q upd c'
  end.

(** [coll.delete_one(q)]: the first match is removed. *)
Fixpoint delete_one (q : filter) (c : Collection) : Collection :=
  match c with
  | [] => []
  | d :: c' => if matches q d then c' else d :: delete_one q c'
  end.

End Mongo.

(** [db[name]]: a collection that was never written is empty. *)
Definition coll (d : Database) (name : string) : Collection :=
  default [] (d !! name).

(** ** Outcomes of a call *)

(** A call returns, raises [HTTPException(status_code, detail)], or raises
    another exception, named by its class; the framework answers an
    exception that is not an [HTTPException] with status 500. *)
Inductive result (A : Type) :=
  | Ok (a : A)
  | HTTPException (status_code : Z) (detail : string)
  | Raise (exc : string).
Arguments Ok {A} a.
Arguments HTTPException {A} status_code detail.
Arguments Raise {A} exc.

(** The status code the caller sees. *)
Definition status_of {A} (r : result A) : Z :=
  match r with
  | Ok _ => 200
  | HTTPException c _ => c
  | Raise _ => 500
  end.

(** Modelled from the spec: [database.create_document] is not among the
    sources.  It inserts one record into the named collection and returns
    the generated identifier as text; without a database it raises. *)
Definition create_document (collection_name : string)
    (data : gmap string value) (oid : ObjectId) (db : option Database)
    : result string * option Database :=
  match db with
  | None => (Raise "Exception", None)
  | Some d =>
      (Ok (Bson.str oid),
       Some (<[collection_name := Mongo.insert_one oid data (coll d collection_name)]> d))
  end.

(** ** [schemas.py] and the request models of [main.py] *)

Definition dump_opt (o : option string) : value :=
  match o with
  | None => VNone
  | Some s => VStr s
  end.

Module LeadIn.
Record t := {
  name : string;
  email : string;
  role : string;
  company : option string;
  message : option string;
  consent : bool }.
Definition model_dump (x : t) : gmap string value :=
  list_to_map
    [("name", VStr (name x)); ("email", VStr (email x));
     ("role", VStr (role x)); ("company", dump_opt (company x));
     ("message", dump_opt (message x)); ("consent", VBool (consent x))].
End LeadIn.

Module RegisterIn.
Record t := {
  email : string;
  password : Py.str;
  company : option string;
  contact_name : option string }.
End RegisterIn.

Module LoginIn.
Record t := {
  email : string;
  password : Py.str }.
End LoginIn.

Module Retailer.
(** The field [role] is the literal ["retailer"]. *)
Record t := {
  email : string;
  password_hash : string;
  company : option string;
  contact_name : option string }.
Definition model_dump (x : t) : gmap string value :=
  list_to_map
    [("email", VStr (email x)); ("password_hash", VStr (password_hash x));
     ("company", dump_opt (company x));
     ("contact_name", dump_opt (contact_name x));
     ("role", VStr "retailer")].
End Retailer.

Module Session.
Record t := {
  token : string;
  retailer_id : string;
  expires_at : Q }.
Definition model_dump (x : t) : gmap string value :=
  list_to_map
    [("token", VStr (token x)); ("retailer_id", VStr (retailer_id x));
     ("expires_at", VFloat (expires_at x))].
End Session.

(** [Literal["processing", "shipped", "completed", "cancelled"]]. *)
Inductive OrderStatus := processing | shipped | completed | cancelled.

Definition status_str (s : OrderStatus) : string :=
  match s with
  | processing => "processing"
  | shipped => "shipped"
  | completed => "completed"
  | cancelled => "cancelled"
  end.

Definition status_of_str (s : string) : option OrderStatus :=
  if String.eqb s "processing" then Some processing
  else if String.eqb s "shipped" then Some shipped
  else if String.eqb s "completed" then Some completed
  else if String.eqb s "cancelled" then Some cancelled
  else None.

Module OrderIn.
Record t := {
  order_number : string;
  status : OrderStatus;
  total_amount : Q;
  currency : string;
  items : list OrderItem;
  notes : option string }.
Definition model_dump (x : t) : gmap string value :=
  list_to_map
    [("order_number", VStr (order_number x));
     ("status", VStr (status_str (status x)));
     ("total_amount", VFloat (total_amount x));
     ("currency", VStr (currency x)); ("items", VItems (items x));
     ("notes", dump_opt (notes x))].

(** Validation of a request body against the model: the six fields are
    read, with their defaults ([status = "processing"], [currency = "EUR"],
    [items = []], [notes = None]); keys the model does not declare are
    ignored.  A field of another type than declared is rejected here,
    except that an integer is accepted as [total_amount]: the conversions
    the validation library applies to such values (a numeric string as
    [total_amount], for one) are not modelled, so the library accepts
    bodies this function rejects.  The function serves to say that a key
    the model does not declare does not matter. *)
Definition validate (payload : gmap string value) : option t :=
  match payload !! "order_number" with
  | Some (VStr n) =>
      match payload !! "status" with
      | None => Some processing
      | Some (VStr s) => status_of_str s
      | Some _ => None
      end ≫= fun st =>
      match payload !! "total_amount" with
      | Some (VFloat a) => Some a
      | Some (VInt z) => Some (inject_Z z)
      | _ => None
      end ≫= fun amount =>
      match payload !! "currency" with
      | None => Some "EUR"
      | Some (VStr c) => Some c
      | Some _ => None
      end ≫= fun cur =>
      match payload !! "items" with
      | None => Some []
      | Some (VItems l) => Some l
      | Some _ => None
      end ≫= fun its =>
      match payload !! "notes" with
      | None | Some VNone => Some None
      | Some (VStr s) => Some (Some s)
      | Some _ => None
      end ≫= fun nts =>
      Some {| order_number := n; status := st; total_amount := amount;
              currency := cur; items := its; notes := nts |}
  | _ => None
  end.
End OrderIn.

Module Order.
Record t := {
  retailer_id : string;
  order_number : string;
  status : OrderStatus;
  total_amount : Q;
  currency : string;
  items : list OrderItem;
  notes : option string }.
Definition model_dump (x : t) : gmap string value :=
  list_to_map
    [("retailer_id", VStr (retailer_id x));
     ("order_number", VStr (order_number x));
     ("status", VStr (status_str (status x)));
     ("total_amount", VFloat (total_amount x));
     ("currency", VStr (currency x)); ("items", VItems (items x));
     ("notes", dump_opt (notes x))].
End Order.

(** Response bodies: [{"status": .., "id": ..}] or [{"status": ..}],
    [TokenOut] and [{"orders": [..]}]. *)
Inductive body :=
  | StatusOut (status : string) (id : option string)
  | TokenOut (token : string)
  | OrdersOut (orders : list (gmap string value)).

(** ** Float arithmetic (binary64) *)

Module Float.

(** The exponent of a positive rational: the [e] with [2^e <= x < 2^(e+1)]. *)
Definition exponent (x : Q) : Z :=
  let e0 := (Z.log2 (Qnum x) - Z.log2 (Zpos (Qden x)))%Z in
  if Qle_bool (Qpower 2 e0) x then e0 else (e0 - 1)%Z.

(** The integer nearest to a rational, the even one of two equally near. *)
Definition round_half_even (x : Q) : Z :=
  let f := Qfloor x in
  match (x - inject_Z f ?= 1 # 2)%Q with
  | Lt => f
  | Gt => (f + 1)%Z
  | Eq => if Z.even f then f else (f + 1)%Z
  end.

(** The unit in the last place of a positive rational: 53 significant
    bits, exponents from -1022. *)
Definition ulp (x : Q) : Q := Qpower 2 (Z.max (exponent x) (-1022) - 52).

(** The binary64 number nearest to a non-negative rational.  (Overflow has
    no case: the numbers of the program are far below [2^1024].) *)
Definition round_pos (x : Q) : Q :=
  match Qnum x with
  | Zpos _ => Qred (inject_Z (round_half_even (x / ulp x)) * ulp x)
  | _ => 0
  end.

(** Rounding to nearest, ties to even. *)
Definition round (x : Q) : Q :=
  match Qnum x with
  | Zneg _ => Qopp (round_pos (Qopp x))
  | _ => round_pos x
  end.

(** [x + y] on floats. *)
Definition add (x y : Q) : Q := round (x + y).

End Float.

(** ** [main.py] *)

Definition map_ok {A B} (f : A -> B) (r : result A) : result B :=
  match r with
  | Ok a => Ok (f a)
  | HTTPException c m => HTTPException c m
  | Raise e => Raise e
  end.

(** [create_lead]: any exception becomes a 500 with the exception's text. *)
Definition create_lead (lead : LeadIn.t) (oid : ObjectId)
    (db : option Database) : result body * option Database :=
  let '(r, db') := create_document "lead" (LeadIn.model_dump lead) oid db in
  match r with
  | Ok lead_id => (Ok (StatusOut "ok" (Some lead_id)), db')
  | HTTPException _ e | Raise e => (HTTPException 500 e, db')
  end.

Definition SALT : string := "ld_static_salt_v1".

(** [hash_password]; encoding the text raises for a lone surrogate. *)
Definition hash_password (pw : Py.str) : result string :=
  match Py.encode (Py.text SALT ++ pw)%list with
  | None => Raise "UnicodeEncodeError"
  | Some bytes =>
      let digest := Hashlib.sha256_hexdigest bytes in
      Ok (SALT ++ "$" ++ digest)
  end.

(** [bool(db)]: [None] is false; the truth value of a database raises. *)
Definition truth_value (db : option Database) : result bool :=
  match db with
  | None => Ok false
  | Some _ => Raise "NotImplementedError"
  end.

(** [register].  The existence check is guarded by the truth value of the
    handle ([if db]), where the other handlers test [db is None]. *)
Definition register (data : RegisterIn.t) (oid : ObjectId)
    (db : option Database) : result body * option Database :=
  match truth_value db with
  | Raise e => (Raise e, db)
  | HTTPException c m => (HTTPException c m, db)
  | Ok b =>
      let existing :=
        if b then
          Mongo.find [("email", VStr (RegisterIn.email data))]
            (coll (default ∅ db) "retailer")
        else [] in
      match existing with
      | _ :: _ => (HTTPException 400 "Account already exists", db)
      | [] =>
          match hash_password (RegisterIn.password data) with
          | Raise e => (Raise e, db)
          | HTTPException c m => (HTTPException c m, db)
          | Ok h =>
              let doc := Retailer.model_dump
                {| Retailer.email := RegisterIn.email data;
                   Retailer.password_hash := h;
                   Retailer.company := RegisterIn.company data;
                   Retailer.contact_name := RegisterIn.contact_name data |} in
              let '(rid, db') := create_document "retailer" doc oid db in
              (map_ok (fun rid => StatusOut "ok" (Some rid)) rid, db')
          end
      end
  end.

(** [x != s] for a field read with [.get] and a string [s]. *)
Definition differs_from_str (x : option value) (s : string) : bool :=
  match x with
  | Some (VStr s') => negb (String.eqb s' s)
  | _ => true
  end.

(** [login], at time [now], with [token] the value drawn from
    [secrets.token_urlsafe(32)].  The password is hashed once the retailer
    is found. *)
Definition login (data : LoginIn.t) (now : Q) (token : string)
    (oid : ObjectId) (db : option Database) : result body * option Database :=
  match db with
  | None => (HTTPException 500 "Database not available", db)
  | Some d =>
      match Mongo.find_one [("email", VStr (LoginIn.email data))] (coll d "retailer") with
      | None => (HTTPException 401 "Invalid credentials", db)
      | Some rec =>
          match hash_password (LoginIn.password data) with
          | Raise e => (Raise e, db)
          | HTTPException c m => (HTTPException c m, db)
          | Ok h =>
              if differs_from_str (get rec "password_hash") h
              then (HTTPException 401 "Invalid credentials", db)
              else
                let sess :=
                  {| Session.token := token;
                     Session.retailer_id := Bson.str (_id rec);
                     Session.expires_at :=
                       Float.add now (inject_Z (60 * 60 * 24 * 7)) |} in
                let '(r, db') :=
                  create_document "session" (Session.model_dump sess) oid db in
                (map_ok (fun _ => TokenOut token) r, db')
          end
      end
  end.

(** A stored number as a rational; [None] for a value that does not compare
    with a float ([TypeError]). *)
Definition as_number (v : value) : option Q :=
  match v with
  | VInt z => Some (inject_Z z)
  | VFloat q => Some q
  | VBool b => Some (if b then 1%Q else 0%Q)
  | _ => None
  end.

(** [x < y] on numbers. *)
Definition lt_num (x y : Q) : bool :=
  match (x ?= y)%Q with
  | Lt => true
  | _ => false
  end.

(** [ObjectId(x)] for a stored value [x], as the value of a query.  For
    [None], [ObjectId] generates a new identifier, the [_id] of no stored
    document: [Ok None]. *)
Definition object_id (x : value) : result (option value) :=
  match x with
  | VStr s =>
      match Bson.make s with
      | Some m => Ok (Some (id_value m))
      | None => Raise "InvalidId"
      end
  | VOid _ | VOidShort _ => Ok (Some x)
  | VNone => Ok None
  | _ => Raise "TypeError"
  end.

(** [get_current_retailer], at time [now].  It only reads the database. *)
Definition get_current_retailer (authorization : option string) (now : Q)
    (db : option Database) : result document :=
  match db with
  | None => HTTPException 500 "Database not available"
  | Some d =>
      if negb (Py.truthy authorization)
         || negb (Py.startswith (Py.lower (default "" authorization)) "bearer ")
      then HTTPException 401 "Missing token"
      else
        match (Py.split1 " " (default "" authorization)).2 with
        | None => Raise "IndexError"
        | Some token =>
            match Mongo.find_one [("token", VStr token)] (coll d "session") with
            | None => HTTPException 401 "Invalid or expired token"
            | Some sess =>
                match as_number (default (VInt 0) (get sess "expires_at")) with
                | None => Raise "TypeError"
                | Some expires_at =>
                    if lt_num expires_at now
                    then HTTPException 401 "Invalid or expired token"
                    else
                      match get sess "retailer_id" with
                      | None => Raise "KeyError"
                      | Some x =>
                          match object_id x with
                          | Raise e => Raise e
                          | HTTPException c m => HTTPException c m
                          | Ok q =>
                              match q ≫= fun v =>
                                      Mongo.find_one [("_id", v)] (coll d "retailer") with
                              | None => HTTPException 401 "Retailer not found"
                              | Some retailer => Ok retailer
                              end
                          end
                      end
                end
            end
        end
  end.

(** A document as [list_orders] returns it: [o["_id"] = str(o["_id"])]. *)
Definition with_str_id (o : document) : gmap string value :=
  <["_id" := VStr (Bson.str (_id o))]> (fields o).

Definition list_orders (current : document) (db : option Database)
    : result body * option Database :=
  match db with
  | None => (HTTPException 500 "Database not available", db)
  | Some d =>
      let orders :=
        Mongo.find [("retailer_id", VStr (Bson.str (_id current)))] (coll d "order") in
      (Ok (OrdersOut (map with_str_id orders)), db)
  end.

Definition create_order (data : OrderIn.t) (current : document)
    (oid : ObjectId) (db : option Database) : result body * option Database :=
  let ord_doc := Order.model_dump
    {| Order.retailer_id := Bson.str (_id current);
       Order.order_number := OrderIn.order_number data;
       Order.status := OrderIn.status data;
       Order.total_amount := OrderIn.total_amount data;
       Order.currency := OrderIn.currency data;
       Order.items := OrderIn.items data;
       Order.notes := OrderIn.notes data |} in
  let '(r, db') := create_document "order" ord_doc oid db in
  (map_ok (fun oid => StatusOut "ok" (Some oid)) r, db').

Definition update_order (order_id : string) (data : OrderIn.t)
    (current : document) (db : option Database)
    : result body * option Database :=
  match db with
  | None => (HTTPException 500 "Database not available", db)
  | Some d =>
      match Bson.make order_id with
      | None => (Raise "InvalidId", db)
      | Some oid =>
          let q := [("_id", id_value oid);
                    ("retailer_id", VStr (Bson.str (_id current)))] in
          (Ok (StatusOut "ok" None),
           Some (alter (Mongo.update_one q (OrderIn.model_dump data)) "order" d))
      end
  end.

Definition delete_order (order_id : string) (current : document)
    (db : option Database) : result body * option Database :=
  match db with
  | None => (HTTPException 500 "Database not available", db)
  | Some d =>
      match Bson.make order_id with
      | None => (Raise "InvalidId", db)
      | Some oid =>
          let q := [("_id", id_value oid);
                    ("retailer_id", VStr (Bson.str (_id current)))] in
          (Ok (StatusOut "ok" None),
           Some (alter (Mongo.delete_one q) "order" d))
      end
  end.

(** ** The service as a whole *)

(** What one request draws from the environment: the clock, the random
    token and the identifier generated for an inserted document. *)
Record env := {
  now : Q;
  token : string;
  oid : ObjectId }.

Inductive request :=
  | PostLead (lead : LeadIn.t)
  | PostRegister (data : RegisterIn.t)
  | PostLogin (data : LoginIn.t)
  | GetOrders (authorization : option string)
  | PostOrder (authorization : option string) (data : OrderIn.t)
  | PutOrder (authorization : option string) (order_id : string) (data : OrderIn.t)
  | DeleteOrder (authorization : option string) (order_id : string).

(** [current=Depends(get_current_retailer)]: the dependency runs first and
    its failure is the response. *)
Definition depends (authorization : option string) (now : Q)
    (endpoint : document -> option Database -> result body * option Database)
    (db : option Database) : result body * option Database :=
  match get_current_retailer authorization now db with
  | Ok current => endpoint current db
  | HTTPException c m => (HTTPException c m, db)
  | Raise e => (Raise e, db)
  end.

Definition handle (e : env) (r : request) (db : option Database)
    : result body * option Database :=
  match r with
  | PostLead lead => create_lead lead (oid e) db
  | PostRegister data => register data (oid e) db
  | PostLogin data => login data (now e) (token e) (oid e) db
  | GetOrders a => depends a (now e) list_orders db
  | PostOrder a data =>
      depends a (now e) (fun current => create_order data current (oid e)) db
  | PutOrder a order_id data =>
      depends a (now e) (update_order order_id data) db
  | DeleteOrder a order_id =>
      depends a (now e) (delete_order order_id) db
  end.

(** The database after a sequence of requests. *)
Fixpoint run (trace : list (env * request)) (db : option Database)
    : option Database :=
  match trace with
  | [] => db
  | (e, r) :: trace' => run trace' (handle e r db).2
  end.

(** ** Notions the properties are stated with *)

(** The order [o] belongs to the retailer [r]. *)
Definition owned_by (r o : document) : Prop :=
  get o "retailer_id" = Some (VStr (Bson.str (_id r))).

#[global] Instance owned_by_dec r o : Decision (owned_by r o).
Proof. unfold owned_by. apply _. Defined.

(** The orders of a collection that do not belong to [r], in order. *)
Definition foreign (r : document) (c : Collection) : Collection :=
  List.filter (fun o => negb (bool_decide (owned_by r o))) c.

(** Identifier and owner of every order, in order. *)
Definition owners (c : Collection) : list (ObjectId * option value) :=
  map (fun o => (_id o, get o "retailer_id")) c.

(** What a request can do to the database: nothing, append a lead, a
    session or an order, or rewrite the orders by an update or a delete. *)
Inductive effect (d : Database) : Database -> Prop :=
  | effect_none : effect d d
  | effect_lead (x : document) :
      effect d (<["lead" := (coll d "lead" ++ [x])%list]> d)
  | effect_session (x : document) :
      effect d (<["session" := (coll d "session" ++ [x])%list]> d)
  | effect_order (x : document) :
      effect d (<["order" := (coll d "order" ++ [x])%list]> d)
  | effect_orders (f : Collection -> Collection) :
      f [] = [] -> effect d (alter f "order" d).

(** The session validator and the order store as the specification words
    them. *)
Module Spec.

(** No order with the identifier text [order_id] belongs to [B]: the order
    is absent or belongs to a different retailer. *)
Definition absent_or_foreign (d : Database) (B : document) (order_id : string) : Prop :=
  forall o, o ∈ coll d "order" -> Bson.str (_id o) = order_id -> ~ owned_by B o.

(** Update and delete of such an order succeed and change nothing. *)
Definition silent_success : Prop :=
  forall (d : Database) (B : document) (order_id : string) (data : OrderIn.t),
    absent_or_foreign d B order_id ->
    update_order order_id data B (Some d) = (Ok (StatusOut "ok" None), Some d)
    /\ delete_order order_id B (Some d) = (Ok (StatusOut "ok" None), Some d).

Inductive AuthError := MissingToken | InvalidToken | ExpiredToken | RetailerNotFound.

(** [Authorization: Bearer <token>], the scheme matched without regard to
    case: the token a header carries. *)
Definition bearer (authorization : option string) : option string :=
  match authorization with
  | Some a =>
      if String.eqb (Py.lower (String.substring 0 7 a)) "bearer "
      then Some (String.substring 7 (String.length a - 7) a)
      else None
  | None => None
  end.

(** The session's [expires_at] is in the past. *)
Definition expired (sess : document) (now : Q) : Prop :=
  exists e, as_number (default (VInt 0) (get sess "expires_at")) = Some e /\ (e < now)%Q.

(** The session is live: its [expires_at] is not in the past. *)
Definition live (sess : document) (now : Q) : Prop :=
  exists e, as_number (default (VInt 0) (get sess "expires_at")) = Some e /\ (now <= e)%Q.

(** The retailer a session refers to. *)
Definition retailer_of (d : Database) (sess : document) : option document :=
  match get sess "retailer_id" with
  | Some (VStr rid) =>
      Bson.of_str rid ≫= fun oid => Mongo.find_one [("_id", VOid oid)] (coll d "retailer")
  | Some (VOid oid) => Mongo.find_one [("_id", VOid oid)] (coll d "retailer")
  | _ => None
  end.

(** The string is accepted by [ObjectId]: 24 characters that
    [bytes.fromhex] reads. *)
Definition object_id_text (rid : string) : Prop := is_Some (Bson.make rid).

(** The session's [retailer_id] is an identifier (as text or as such). *)
Definition has_retailer_ref (sess : document) : Prop :=
  match get sess "retailer_id" with
  | Some (VStr rid) => object_id_text rid
  | Some (VOid _) | Some (VOidShort _) | Some VNone => True
  | _ => False
  end.

(** Steps (a) to (e) of the validator: the token is missing or empty; no
    session has exactly that token; the session is expired; its retailer is
    absent; otherwise the retailer.  (A stored [expires_at] that is not a
    number counts as expired.) *)
Definition validate (token : option string) (now : Q) (d : Database)
    : document + AuthError :=
  match token with
  | None => inr MissingToken
  | Some t =>
      if String.eqb t "" then inr MissingToken
      else
        match Mongo.find_one [("token", VStr t)] (coll d "session") with
        | None => inr InvalidToken
        | Some sess =>
            match as_number (default (VInt 0) (get sess "expires_at")) with
            | Some e =>
                if lt_num e now then inr ExpiredToken
                else
                  match retailer_of d sess with
                  | None => inr RetailerNotFound
                  | Some r => inl r
                  end
            | None => inr ExpiredToken
            end
        end
  end.

(** The response each failure has in [get_current_retailer]. *)
Definition surface (e : AuthError) : result document :=
  match e with
  | MissingToken => HTTPException 401 "Missing token"
  | InvalidToken | ExpiredToken => HTTPException 401 "Invalid or expired token"
  | RetailerNotFound => HTTPException 401 "Retailer not found"
  end.

Definition response (v : document + AuthError) : result document :=
  match v with
  | inl r => Ok r
  | inr e => surface e
  end.

(** The validator's contract: the call answers as steps (a) to (e) say. *)
Definition validation_contract : Prop :=
  forall (d : Database) (authorization : option string) (now : Q),
    get_current_retailer authorization now (Some d)
    = response (validate (bearer authorization) now d).

(** Any two failed validations get the same status and the same message. *)
Definition indistinguishable : Prop :=
  forall (d : Database) (a1 a2 : option string) (t1 t2 : Q)
         (c1 c2 : Z) (m1 m2 : string),
    get_current_retailer a1 t1 (Some d) = HTTPException c1 m1 ->
    get_current_retailer a2 t2 (Some d) = HTTPException c2 m2 ->
    c1 = c2 /\ m1 = m2.

End Spec.

(** The outcome of validation for the session found under the token. *)
Definition session_outcome (d : Database) (sess : document) (t : Q)
    (r : result document) : Prop :=
  (r = HTTPException 401 "Invalid or expired token" <-> Spec.expired sess t)
  /\ (r = HTTPException 401 "Retailer not found" <->
        Spec.live sess t /\ Spec.has_retailer_ref sess
        /\ Spec.retailer_of d sess = None)
  /\ (forall ret, r = Ok ret <->
        Spec.live sess t /\ Spec.retailer_of d sess = Some ret)
  /\ r <> HTTPException 401 "Missing token".

(** ** Sample data *)

Module Sample.

Definition id_alice : ObjectId := Bson.Oid x65 x00 x00 x00 x00 x00 x00 x00 x00 x00 x00 x01.
Definition id_bob : ObjectId := Bson.Oid x65 x00 x00 x00 x00 x00 x00 x00 x00 x00 x00 x02.
Definition id_session : ObjectId := Bson.Oid x65 x00 x00 x00 x00 x00 x00 x00 x00 x00 x00 x03.
Definition id_order : ObjectId := Bson.Oid x65 x00 x00 x00 x00 x00 x00 x00 x00 x00 x00 x04.

(** The hash stored for a password. *)
Definition stored_hash (pw : Py.str) : string :=
  match hash_password pw with
  | Ok h => h
  | _ => ""
  end.

Definition retailer_alice : document :=
  Doc id_alice (Retailer.model_dump
    {| Retailer.email := "a@x.com";
       Retailer.password_hash := stored_hash (Py.text "pw1");
       Retailer.company := None; Retailer.contact_name := None |}).
Definition retailer_bob : document :=
  Doc id_bob (Retailer.model_dump
    {| Retailer.email := "b@x.com";
       Retailer.password_hash := stored_hash (Py.text "pw2");
       Retailer.company := Some "B Ltd"; Retailer.contact_name := None |}).

(** A database that holds the accounts of Alice and Bob. *)
Definition seed : Database :=
  Eval vm_compute in <["retailer" := [retailer_alice; retailer_bob]]> ∅.

Definition order_in : OrderIn.t :=
  {| OrderIn.order_number := "A-1"; OrderIn.status := processing;
     OrderIn.total_amount := 10; OrderIn.currency := "EUR";
     OrderIn.items := [{| sku := "s"; title := "t"; qty := 2; price := 5 |}];
     OrderIn.notes := None |}.

Definition token_alice : string := "tok-alice".

(** Alice logs in at time 1000 and creates an order. *)
Definition trace : list (env * request) :=
  [({| now := 1000; token := token_alice; oid := id_session |},
    PostLogin {| LoginIn.email := "a@x.com"; LoginIn.password := Py.text "pw1" |});
   ({| now := 1001; token := ""; oid := id_order |},
    PostOrder (Some "Bearer tok-alice") order_in)].

Definition db : Database := Eval vm_compute in default ∅ (run trace (Some seed)).

Definition alice : document := Eval vm_compute in default (Doc id_alice ∅) (head (coll db "retailer")).
Definition bob : document := Eval vm_compute in default (Doc id_bob ∅) (last (coll db "retailer")).
Definition order : document := Eval vm_compute in default (Doc id_order ∅) (head (coll db "order")).

(** Alice logs in again at time 2000, with a new token. *)
Definition login_alice : LoginIn.t :=
  {| LoginIn.email := "a@x.com"; LoginIn.password := Py.text "pw1" |}.
Definition id_session2 : ObjectId := Bson.Oid x65 x00 x00 x00 x00 x00 x00 x00 x00 x00 x00 x05.
Definition db1 : Database :=
  Eval vm_compute in default ∅ (login login_alice 2000 "tok-2" id_session2 (Some db)).2.

(** Later requests: Bob logs in, and Alice updates and deletes her order. *)
Definition later : list (env * request) :=
  [({| now := 3000; token := "tok-bob";
       oid := Bson.Oid x65 x00 x00 x00 x00 x00 x00 x00 x00 x00 x00 x06 |},
    PostLogin {| LoginIn.email := "b@x.com"; LoginIn.password := Py.text "pw2" |});
   ({| now := 3001; token := ""; oid := id_order |},
    PutOrder (Some "bearer tok-2") (Bson.str id_order) order_in);
   ({| now := 3002; token := ""; oid := id_order |},
    DeleteOrder (Some "BEARER tok-2") (Bson.str id_order))].

(** A clock reading of November 2023, [1700000000.123456] as a float, and
    the database after Alice logs in at that time. *)
Definition clock : Q := 1782579200129453 # 1048576.
Definition db_clock : Database :=
  Eval vm_compute in default ∅ (login login_alice clock "tok-2" id_session2 (Some db)).2.

(** The last float below [2^31] (January 2038), and the database after
    Alice logs in at that time. *)
Definition clock_2038 : Q := 9007199254740991 # 4194304.
Definition db_2038 : Database :=
  Eval vm_compute in default ∅ (login login_alice clock_2038 "tok-2" id_session2 (Some db)).2.

(** The sample database without its retailers. *)
Definition orphaned : Database := Eval vm_compute in <["retailer" := []]> db.

End Sample.


(** ** The health check of [main.py] *)

(** The response of [test_database].  The field [database] is held as
    code points: the program cuts the text it puts there by characters. *)
Module Health.
Record t := {
  backend : string;
  database : Py.str;
  database_url : option string;
  database_name : option string;
  connection_status : string;
  collections : list string }.
End Health.

(** What [test_database] reads of a database handle: its [name], when the
    handle has that attribute, and the outcome of
    [db.list_collection_names()], the names or the text of the exception. *)
Record handle_view := {
  db_name : option string;
  listing : Py.str + list string }.

(** The signs the messages start with: a check mark, and a warning sign
    (with its variation selector) followed by two spaces. *)
Definition check_mark : Py.str := [0x2705; 32]%N.
Definition warning_sign : Py.str := [0x26A0; 0xFE0F; 32; 32]%N.

(** [test_database], with [url] the value of [os.getenv("DATABASE_URL")].
    The response starts from its defaults and is filled in as far as the
    calls succeed; [s[:50]] keeps the first 50 characters.  (The outer
    [except], for a failure of [os.getenv] or of the attribute access, has
    no case here.) *)
Definition test_database (url : option string) (db : option handle_view)
    : Health.t :=
  match db with
  | Some h =>
      let database_url := Some (if Py.truthy url then "✅ Set" else "❌ Not Set") in
      let database_name := Some (default "❌ Unknown" (db_name h)) in
      match listing h with
      | inr names =>
          {| Health.backend := "✅ Running";
             Health.database := (check_mark ++ Py.text "Connected & Working")%list;
             Health.database_url := database_url;
             Health.database_name := database_name;
             Health.connection_status := "Connected";
             Health.collections := take 10 names |}
      | inl e =>
          {| Health.backend := "✅ Running";
             Health.database :=
               (warning_sign ++ Py.text "Connected but Error: " ++ take 50 e)%list;
             Health.database_url := database_url;
             Health.database_name := database_name;
             Health.connection_status := "Connected";
             Health.collections := [] |}
      end
  | None =>
      {| Health.backend := "✅ Running";
         Health.database :=
           (warning_sign ++ Py.text "Available but not initialized")%list;
         Health.database_url := None;
         Health.database_name := None;
         Health.connection_status := "Not Connected";
         Health.collections := [] |}
  end.

(** ** Further notions *)

(** The orders of a collection that belong to [r], in order. *)
Definition mine (r : document) (c : Collection) : Collection :=
  List.filter (fun o => bool_decide (owned_by r o)) c.

(** The [Authorization] header of a request to an order endpoint. *)
Definition credentials (r : request) : option (option string) :=
  match r with
  | GetOrders a | PostOrder a _ | PutOrder a _ _ | DeleteOrder a _ => Some a
  | PostLead _ | PostRegister _ | PostLogin _ => None
  end.

(** The query of [update_order] and [delete_order]. *)
Definition order_query (current : document) (oid : ObjectId) : Mongo.filter :=
  [("_id", VOid oid); ("retailer_id", VStr (Bson.str (_id current)))].

(** More sample data. *)
Module Sample2.

(** A session stored without [expires_at], one without [retailer_id], one
    whose [retailer_id] is not the text of an identifier, and one whose
    [retailer_id] has 22 hexadecimal digits and two spaces. *)
Definition odd_sessions : Database :=
  Eval vm_compute in
    <["session" :=
        [Doc Sample.id_session (list_to_map [("token", VStr "no-expiry");
            ("retailer_id", VStr "650000000000000000000001")]);
         Doc Sample.id_session2 (list_to_map [("token", VStr "no-retailer");
            ("expires_at", VFloat 5000)]);
         Doc Sample.id_order (list_to_map [("token", VStr "bad-retailer");
            ("retailer_id", VStr "alice"); ("expires_at", VFloat 5000)]);
         Doc Sample.id_bob (list_to_map [("token", VStr "spaced-retailer");
            ("retailer_id", VStr "6500000000000000000001  ");
            ("expires_at", VFloat 5000)])]]>
    Sample.db.

Definition id_new : ObjectId := Bson.Oid x65 x00 x00 x00 x00 x00 x00 x00 x00 x00 x00 x08.

Definition order_in2 : OrderIn.t :=
  {| OrderIn.order_number := "A-1"; OrderIn.status := shipped;
     OrderIn.total_amount := 12; OrderIn.currency := "USD";
     OrderIn.items := []; OrderIn.notes := Some "sent" |}.

End Sample2.

(** * Properties *)

(** ** Hexadecimal text and identifiers *)

Lemma to_byte_of_byte (b : byte) :
  Hex.to_byte (Hex.digit (Byte.to_N b / 16)) (Hex.digit (Byte.to_N b mod 16)) = Some b.
Proof. destruct b; vm_compute; reflexivity. Qed.

Lemma of_byte_append (b : byte) (s : string) :
  Hex.of_byte b ++ s =
  String (Hex.digit (Byte.to_N b / 16)) (String (Hex.digit (Byte.to_N b mod 16)) s).
Proof. reflexivity. Qed.

Lemma digit_not_space (b : byte) :
  Hex.is_space (Hex.digit (Byte.to_N b / 16)) = false.
Proof. destruct b; vm_compute; reflexivity. Qed.

Lemma fromhex_hexlify (l : list byte) : Hex.fromhex (Hex.hexlify l) = Some l.
Proof.
  induction l as [|b l IH]; [reflexivity|].
  cbn [Hex.hexlify]. rewrite of_byte_append. cbn [Hex.fromhex].
  now rewrite digit_not_space, to_byte_of_byte, IH.
Qed.

Lemma length_hexlify (l : list byte) :
  String.length (Hex.hexlify l) = 2 * length l.
Proof.
  induction l as [|b l IH]; [reflexivity|].
  cbn [Hex.hexlify]. rewrite of_byte_append.
  cbn [String.length length]. rewrite IH. lia.
Qed.

(** [ObjectId(str(oid)) == oid]. *)
Lemma make_str (o : ObjectId) : Bson.make (Bson.str o) = Some (Bson.Full o).
Proof.
  destruct o. unfold Bson.make, Bson.str.
  rewrite length_hexlify, fromhex_hexlify. reflexivity.
Qed.

Lemma of_str_str (o : ObjectId) : Bson.of_str (Bson.str o) = Some o.
Proof. unfold Bson.of_str. now rewrite make_str. Qed.

Lemma of_str_make (s : string) (o : ObjectId) :
  Bson.of_str s = Some o -> Bson.make s = Some (Bson.Full o).
Proof.
  unfold Bson.of_str. destruct (Bson.make s) as [[o'|bs]|]; congruence.
Qed.

Lemma str_inj (o1 o2 : ObjectId) : Bson.str o1 = Bson.str o2 -> o1 = o2.
Proof.
  intros H. apply (f_equal Bson.of_str) in H.
  rewrite !of_str_str in H. congruence.
Qed.

(** ** Collections of the database *)

Lemma coll_insert (d : Database) (k k' : string) (c : Collection) :
  coll (<[k := c]> d) k' = if decide (k = k') then c else coll d k'.
Proof.
  unfold coll. rewrite lookup_insert. destruct (decide (k = k')); reflexivity.
Qed.

Lemma coll_alter (f : Collection -> Collection) (d : Database) (k k' : string) :
  f [] = [] ->
  coll (alter f k d) k' = if decide (k = k') then f (coll d k) else coll d k'.
Proof.
  intros Hf. unfold coll. rewrite lookup_alter.
  destruct (decide (k = k')) as [<-|]; [|reflexivity].
  destruct (d !! k); simpl; congruence.
Qed.

Lemma alter_same (f : Collection -> Collection) (d : Database) (k : string) :
  f (coll d k) = coll d k -> alter f k d = d.
Proof.
  intros Hf. apply alter_id. intros c Hc.
  unfold coll in Hf. rewrite Hc in Hf. exact Hf.
Qed.

(** ** Filters *)

Lemma matches_one (k : string) (v : value) (d : document) :
  Mongo.matches [(k, v)] d = true <-> get d k = Some v.
Proof.
  unfold Mongo.matches. simpl. rewrite andb_true_r.
  apply bool_decide_eq_true.
Qed.

Lemma matches_two (k1 k2 : string) (v1 v2 : value) (d : document) :
  Mongo.matches [(k1, v1); (k2, v2)] d = true <->
  get d k1 = Some v1 /\ get d k2 = Some v2.
Proof.
  unfold Mongo.matches. simpl. rewrite andb_true_r, andb_true_iff.
  now rewrite !bool_decide_eq_true.
Qed.

Lemma get_id (d : document) : get d "_id" = Some (VOid (_id d)).
Proof. reflexivity. Qed.

Lemma find_one_Some (q : Mongo.filter) (c : Collection) (d : document) :
  Mongo.find_one q c = Some d -> d ∈ c /\ Mongo.matches q d = true.
Proof.
  induction c as [|x c IH]; simpl; [discriminate|].
  destruct (Mongo.matches q x) eqn:E.
  - intros [= <-]. split; [left | assumption].
  - intros H. destruct (IH H). split; [now right | assumption].
Qed.

Lemma find_one_None (q : Mongo.filter) (c : Collection) :
  Mongo.find_one q c = None <-> forall d, d ∈ c -> Mongo.matches q d = false.
Proof.
  induction c as [|x c IH]; simpl.
  - split; [intros _ d Hd; inversion Hd | reflexivity].
  - destruct (Mongo.matches q x) eqn:E.
    + split; [discriminate|]. intros H. specialize (H x (list_elem_of_here _ _)). congruence.
    + rewrite IH. split.
      * intros H d Hd. apply elem_of_cons in Hd as [->|Hd]; auto.
      * intros H d Hd. apply H. now right.
Qed.

Lemma find_one_is_Some (q : Mongo.filter) (c : Collection) (d : document) :
  d ∈ c -> Mongo.matches q d = true -> is_Some (Mongo.find_one q c).
Proof.
  intros Hd Hm. destruct (Mongo.find_one q c) eqn:E; [eauto|].
  rewrite find_one_None in E. rewrite (E d Hd) in Hm. discriminate.
Qed.

Lemma find_one_app (q : Mongo.filter) (c c' : Collection) :
  Mongo.find_one q (c ++ c') =
  match Mongo.find_one q c with
  | Some d => Some d
  | None => Mongo.find_one q c'
  end.
Proof.
  induction c as [|x c IH]; simpl; [reflexivity|].
  destruct (Mongo.matches q x); [reflexivity | exact IH].
Qed.

Lemma find_nil (q : Mongo.filter) (c : Collection) :
  Mongo.find q c = [] <-> forall d, d ∈ c -> Mongo.matches q d = false.
Proof.
  unfold Mongo.find. induction c as [|x c IH]; simpl.
  - split; [intros _ d Hd; inversion Hd | reflexivity].
  - destruct (Mongo.matches q x) eqn:E.
    + split; [discriminate|]. intros H. specialize (H x (list_elem_of_here _ _)). congruence.
    + rewrite IH. split.
      * intros H d Hd. apply elem_of_cons in Hd as [->|Hd]; auto.
      * intros H d Hd. apply H. now right.
Qed.

Lemma elem_of_find (q : Mongo.filter) (c : Collection) (d : document) :
  d ∈ Mongo.find q c <-> d ∈ c /\ Mongo.matches q d = true.
Proof.
  unfold Mongo.find. rewrite !list_elem_of_In, filter_In. reflexivity.
Qed.

(** ** Orders of other retailers *)

Lemma get_field (d : document) (k : string) :
  k <> "_id" -> get d k = fields d !! k.
Proof.
  intros Hk. unfold get. destruct (String.eqb_spec k "_id"); congruence.
Qed.

Lemma with_str_id_lookup (o : document) (k : string) :
  k <> "_id" -> with_str_id o !! k = get o k.
Proof.
  intros Hk. unfold with_str_id.
  rewrite lookup_insert_ne by congruence. now rewrite get_field.
Qed.

Lemma owned_by_inj (A B o : document) :
  owned_by A o -> owned_by B o -> _id A = _id B.
Proof.
  unfold owned_by. intros HA HB. apply str_inj. congruence.
Qed.

Lemma model_dump_keys (data : OrderIn.t) (k : string) :
  is_Some (OrderIn.model_dump data !! k) <->
  k ∈ ["order_number"; "status"; "total_amount"; "currency"; "items"; "notes"].
Proof.
  unfold OrderIn.model_dump. cbn [list_to_map foldr fst snd uncurry].
  rewrite !elem_of_cons, elem_of_nil.
  repeat (rewrite lookup_insert; case_decide;
    [subst k; split; intros _; [auto 10 | eauto] | ]).
  rewrite lookup_empty. split; [intros [? [=]] | intuition congruence].
Qed.

Lemma model_dump_retailer_id (data : OrderIn.t) :
  OrderIn.model_dump data !! "retailer_id" = None.
Proof.
  apply eq_None_not_Some. rewrite model_dump_keys.
  rewrite !elem_of_cons, elem_of_nil. intuition discriminate.
Qed.

(** A [$set] that does not name [retailer_id] leaves the owner as it is. *)
Lemma set_keeps_owner (upd : gmap string value) (d : document) :
  upd !! "retailer_id" = None ->
  get (Doc (_id d) (upd ∪ fields d)) "retailer_id" = get d "retailer_id".
Proof.
  intros Hu. rewrite !get_field by discriminate. simpl.
  rewrite lookup_union_r; auto.
Qed.

Lemma update_one_owners (q : Mongo.filter) (upd : gmap string value) (c : Collection) :
  upd !! "retailer_id" = None ->
  owners (Mongo.update_one q upd c) = owners c.
Proof.
  intros Hu. unfold owners. induction c as [|x c IH]; simpl; [reflexivity|].
  destruct (Mongo.matches q x); simpl.
  - now rewrite set_keeps_owner.
  - now rewrite IH.
Qed.

Lemma update_one_foreign (B : document) (q : Mongo.filter)
    (upd : gmap string value) (c : Collection) :
  (forall x, Mongo.matches q x = true -> owned_by B x) ->
  upd !! "retailer_id" = None ->
  foreign B (Mongo.update_one q upd c) = foreign B c.
Proof.
  intros Hq Hu. unfold foreign. induction c as [|x c IH]; simpl; [reflexivity|].
  destruct (Mongo.matches q x) eqn:E; simpl.
  - specialize (Hq x E).
    rewrite (bool_decide_eq_true_2 (owned_by B x)) by assumption.
    rewrite (bool_decide_eq_true_2 (owned_by B _)); [reflexivity|].
    unfold owned_by in *. now rewrite set_keeps_owner.
  - now rewrite IH.
Qed.

Lemma delete_one_foreign (B : document) (q : Mongo.filter) (c : Collection) :
  (forall x, Mongo.matches q x = true -> owned_by B x) ->
  foreign B (Mongo.delete_one q c) = foreign B c.
Proof.
  intros Hq. unfold foreign. induction c as [|x c IH]; simpl; [reflexivity|].
  destruct (Mongo.matches q x) eqn:E; simpl.
  - specialize (Hq x E).
    now rewrite (bool_decide_eq_true_2 (owned_by B x)) by assumption.
  - now rewrite IH.
Qed.

Lemma elem_of_foreign (B : document) (c : Collection) (o : document) :
  o ∈ foreign B c <-> o ∈ c /\ ~ owned_by B o.
Proof.
  unfold foreign. rewrite !list_elem_of_In, filter_In, negb_true_iff.
  now rewrite bool_decide_eq_false.
Qed.

Lemma order_filter_owned (B : document) (v : value) (x : document) :
  Mongo.matches [("_id", v); ("retailer_id", VStr (Bson.str (_id B)))] x = true ->
  owned_by B x.
Proof. rewrite matches_two. now intros [_ H]. Qed.

(** C1. Cross-tenant isolation: an order [o] of retailer [A] is not among
    the orders [list_orders] returns to another retailer [B], and it is
    still stored, unchanged, after any [update_order] or [delete_order] of
    [B], whatever [order_id] is given ([o]'s own included).  Every order
    operation is filtered by the caller: the listed orders all carry [B]'s
    identifier, and the orders that are not [B]'s are the same before and
    after an update or a delete. *)
Theorem cross_tenant_isolation (d : Database) (A B o : document) :
  _id A <> _id B ->
  o ∈ coll d "order" ->
  owned_by A o ->
  (exists orders,
      list_orders B (Some d) = (Ok (OrdersOut orders), Some d)
      /\ (with_str_id o ∉ orders)
      /\ forall x, x ∈ orders ->
           x !! "retailer_id" = Some (VStr (Bson.str (_id B))))
  /\ (forall order_id data, exists r d',
        update_order order_id data B (Some d) = (r, Some d')
        /\ o ∈ coll d' "order"
        /\ foreign B (coll d' "order") = foreign B (coll d "order"))
  /\ (forall order_id, exists r d',
        delete_order order_id B (Some d) = (r, Some d')
        /\ o ∈ coll d' "order"
        /\ foreign B (coll d' "order") = foreign B (coll d "order")).
Proof.
  intros Hne Ho HA.
  assert (HoB : o ∈ foreign B (coll d "order")).
  { apply elem_of_foreign. split; [assumption|].
    intros HB. apply Hne. eapply owned_by_inj; eassumption. }
  split; [|split].
  - eexists. split; [reflexivity|]. split.
    + intros Hin. apply list_elem_of_fmap in Hin as (x & Hx & Hin).
      apply elem_of_find in Hin as [_ Hm]. apply matches_one in Hm.
      apply (f_equal (fun m => m !! "retailer_id")) in Hx.
      rewrite !with_str_id_lookup in Hx by discriminate.
      apply Hne. apply (owned_by_inj A B o); [assumption|].
      unfold owned_by. congruence.
    + intros x Hin. apply list_elem_of_fmap in Hin as (y & -> & Hin).
      apply elem_of_find in Hin as [_ Hm]. apply matches_one in Hm.
      now rewrite with_str_id_lookup by discriminate.
  - intros order_id data. unfold update_order.
    destruct (Bson.make order_id) as [oid|]; [|now eauto 10].
    do 2 eexists. split; [reflexivity|].
    rewrite coll_alter by reflexivity. rewrite decide_True by reflexivity.
    assert (E : foreign B (Mongo.update_one
        [("_id", id_value oid); ("retailer_id", VStr (Bson.str (_id B)))]
        (OrderIn.model_dump data) (coll d "order")) = foreign B (coll d "order")).
    { apply update_one_foreign;
        [apply order_filter_owned | apply model_dump_retailer_id]. }
    split; [|exact E].
    rewrite <- E in HoB. now apply elem_of_foreign in HoB as [? _].
  - intros order_id. unfold delete_order.
    destruct (Bson.make order_id) as [oid|]; [|now eauto 10].
    do 2 eexists. split; [reflexivity|].
    rewrite coll_alter by reflexivity. rewrite decide_True by reflexivity.
    assert (E : foreign B (Mongo.delete_one
        [("_id", id_value oid); ("retailer_id", VStr (Bson.str (_id B)))]
        (coll d "order")) = foreign B (coll d "order")).
    { apply delete_one_foreign, order_filter_owned. }
    split; [|exact E].
    rewrite <- E in HoB. now apply elem_of_foreign in HoB as [? _].
Qed.

Example sample_store :
  run Sample.trace (Some Sample.seed) = Some Sample.db
  /\ map _id (coll Sample.db "retailer") = [Sample.id_alice; Sample.id_bob]
  /\ map (fun s => get s "retailer_id") (coll Sample.db "session")
     = [Some (VStr "650000000000000000000001")]
  /\ owners (coll Sample.db "order")
     = [(Sample.id_order, Some (VStr "650000000000000000000001"))].
Proof. repeat split; vm_compute; reflexivity. Qed.

Lemma cross_tenant_isolation_witness :
  (exists orders,
      list_orders Sample.bob (Some Sample.db) = (Ok (OrdersOut orders), Some Sample.db)
      /\ (with_str_id Sample.order ∉ orders)
      /\ forall x, x ∈ orders ->
           x !! "retailer_id" = Some (VStr (Bson.str (_id Sample.bob))))
  /\ (forall order_id data, exists r d',
        update_order order_id data Sample.bob (Some Sample.db) = (r, Some d')
        /\ Sample.order ∈ coll d' "order"
        /\ foreign Sample.bob (coll d' "order") = foreign Sample.bob (coll Sample.db "order"))
  /\ (forall order_id, exists r d',
        delete_order order_id Sample.bob (Some Sample.db) = (r, Some d')
        /\ Sample.order ∈ coll d' "order"
        /\ foreign Sample.bob (coll d' "order") = foreign Sample.bob (coll Sample.db "order")).
Proof.
  apply (cross_tenant_isolation Sample.db Sample.alice Sample.bob Sample.order).
  - discriminate.
  - vm_compute. apply list_elem_of_here.
  - vm_compute. reflexivity.
Defined.

(** C10. Update preserves ownership: the [$set] document of [update_order]
    has exactly the six fields of [OrderIn], [retailer_id] is not one of
    them, and after any update (directly or as a [PUT] request) every order
    has the identifier and the [retailer_id] it had before. *)
Theorem update_preserves_ownership (d : Database) (current : document)
    (order_id : string) (data : OrderIn.t) :
  (forall k, is_Some (OrderIn.model_dump data !! k) <->
     k ∈ ["order_number"; "status"; "total_amount"; "currency"; "items"; "notes"])
  /\ OrderIn.model_dump data !! "retailer_id" = None
  /\ (exists r d',
        update_order order_id data current (Some d) = (r, Some d')
        /\ owners (coll d' "order") = owners (coll d "order"))
  /\ (forall e a, exists r d',
        handle e (PutOrder a order_id data) (Some d) = (r, Some d')
        /\ owners (coll d' "order") = owners (coll d "order")).
Proof.
  assert (Hup : forall cur, exists r d',
        update_order order_id data cur (Some d) = (r, Some d')
        /\ owners (coll d' "order") = owners (coll d "order")).
  { intros cur. unfold update_order.
    destruct (Bson.make order_id) as [oid|]; [|now eauto].
    do 2 eexists. split; [reflexivity|].
    rewrite coll_alter by reflexivity. rewrite decide_True by reflexivity.
    apply update_one_owners, model_dump_retailer_id. }
  split; [apply model_dump_keys|].
  split; [apply model_dump_retailer_id|].
  split; [apply Hup|].
  intros e a. simpl. unfold depends.
  destruct (get_current_retailer a (now e) (Some d)) as [cur| |]; [apply Hup|now eauto..].
Qed.

(** ** Updates and deletes without a match *)

Lemma update_one_no_match (q : Mongo.filter) (upd : gmap string value) (c : Collection) :
  (forall x, x ∈ c -> Mongo.matches q x = false) -> Mongo.update_one q upd c = c.
Proof.
  induction c as [|x c IH]; intros H; simpl; [reflexivity|].
  rewrite (H x) by left. rewrite IH; [reflexivity|].
  intros y Hy. apply H. now right.
Qed.

Lemma delete_one_no_match (q : Mongo.filter) (c : Collection) :
  (forall x, x ∈ c -> Mongo.matches q x = false) -> Mongo.delete_one q c = c.
Proof.
  induction c as [|x c IH]; intros H; simpl; [reflexivity|].
  rewrite (H x) by left. rewrite IH; [reflexivity|].
  intros y Hy. apply H. now right.
Qed.

Lemma order_filter_no_match (d : Database) (B : document) (oid : ObjectId) :
  (forall o, o ∈ coll d "order" -> _id o = oid -> ~ owned_by B o) ->
  forall x, x ∈ coll d "order" ->
    Mongo.matches [("_id", VOid oid); ("retailer_id", VStr (Bson.str (_id B)))] x = false.
Proof.
  intros H x Hx. apply not_true_is_false. rewrite matches_two.
  intros [Hid Hown]. rewrite get_id in Hid.
  apply (H x Hx); [congruence | exact Hown].
Qed.

(** C7, as the code has it. Silent zero-effect semantics for a well-formed
    identifier: when [order_id] is the text of an identifier (24 hexadecimal
    digits) and no order with that identifier belongs to [B], [update_order]
    and [delete_order] answer [{"status": "ok"}] and leave the database as
    it was; they give that same answer in every database, so also when the
    order is [B]'s own. *)
Theorem silent_zero_effect (d : Database) (B : document) (order_id : string)
    (oid : ObjectId) (data : OrderIn.t) :
  Bson.of_str order_id = Some oid ->
  (forall o, o ∈ coll d "order" -> _id o = oid -> ~ owned_by B o) ->
  update_order order_id data B (Some d) = (Ok (StatusOut "ok" None), Some d)
  /\ delete_order order_id B (Some d) = (Ok (StatusOut "ok" None), Some d)
  /\ (forall d0,
        (update_order order_id data B (Some d0)).1 = Ok (StatusOut "ok" None)
        /\ (delete_order order_id B (Some d0)).1 = Ok (StatusOut "ok" None)).
Proof.
  intros Hoid Hno. unfold update_order, delete_order.
  rewrite (of_str_make _ _ Hoid). cbn [id_value].
  pose proof (order_filter_no_match d B oid Hno) as Hm.
  repeat split.
  - do 2 f_equal. apply alter_same. now apply update_one_no_match.
  - do 2 f_equal. apply alter_same. now apply delete_one_no_match.
Qed.

Lemma silent_zero_effect_witness :
  update_order (Bson.str Sample.id_order) Sample.order_in Sample.bob (Some Sample.db)
    = (Ok (StatusOut "ok" None), Some Sample.db)
  /\ delete_order (Bson.str Sample.id_order) Sample.bob (Some Sample.db)
    = (Ok (StatusOut "ok" None), Some Sample.db)
  /\ (forall d0,
        (update_order (Bson.str Sample.id_order) Sample.order_in Sample.bob (Some d0)).1
          = Ok (StatusOut "ok" None)
        /\ (delete_order (Bson.str Sample.id_order) Sample.bob (Some d0)).1
          = Ok (StatusOut "ok" None)).
Proof.
  apply (silent_zero_effect Sample.db Sample.bob (Bson.str Sample.id_order)
           Sample.id_order Sample.order_in).
  - apply of_str_str.
  - intros o Ho _. revert o Ho.
    apply Forall_forall. vm_compute.
    repeat constructor; discriminate.
Defined.

(** C7, as the specification states it, fails: an [order_id] that is not
    the text of an identifier is the identifier of no order, yet
    [update_order] and [delete_order] raise [InvalidId] on it (a 500 for the
    caller), where they answer "ok" for an order of the caller. *)
Lemma malformed_order_id_raises :
  Spec.absent_or_foreign Sample.db Sample.bob "xyz"
  /\ update_order "xyz" Sample.order_in Sample.bob (Some Sample.db)
     = (Raise "InvalidId", Some Sample.db)
  /\ delete_order "xyz" Sample.bob (Some Sample.db)
     = (Raise "InvalidId", Some Sample.db)
  /\ (update_order (Bson.str Sample.id_order) Sample.order_in Sample.alice (Some Sample.db)).1
     = Ok (StatusOut "ok" None)
  /\ ~ Spec.silent_success.
Proof.
  assert (Habs : Spec.absent_or_foreign Sample.db Sample.bob "xyz").
  { intros o Ho Hid. apply (f_equal String.length) in Hid.
    unfold Bson.str in Hid. rewrite length_hexlify in Hid.
    destruct o as [[] ?]. discriminate Hid. }
  repeat split; try assumption.
  intros H. destruct (H Sample.db Sample.bob "xyz" Sample.order_in Habs) as [Hu _].
  discriminate Hu.
Qed.

(** C6. Owner stamping on create: for every retailer [A] and every
    validated body [data], [create_order] appends one order whose fields are
    those of [data] with [retailer_id] set to the text of [A]'s identifier,
    and returns the text of the generated identifier.  A [retailer_id] key
    in the request body, whatever its value, does not change the validated
    body, so it never reaches the stored order. *)
Theorem create_stamps_owner (d : Database) (A : document) (data : OrderIn.t)
    (oid : ObjectId) :
  let new :=
    Doc oid (<["retailer_id" := VStr (Bson.str (_id A))]> (OrderIn.model_dump data)) in
  create_order data A oid (Some d)
    = (Ok (StatusOut "ok" (Some (Bson.str oid))),
       Some (<["order" := (coll d "order" ++ [new])%list]> d))
  /\ owned_by A new
  /\ (forall k, k <> "retailer_id" -> fields new !! k = OrderIn.model_dump data !! k)
  /\ (forall (payload : gmap string value) (v : value),
        OrderIn.validate (<["retailer_id" := v]> payload) = OrderIn.validate payload).
Proof.
  intros new. split; [reflexivity|]. split; [|split].
  - unfold owned_by. rewrite get_field by discriminate.
    apply lookup_insert_eq.
  - intros k Hk. simpl. now rewrite lookup_insert_ne by congruence.
  - intros payload v. unfold OrderIn.validate.
    now rewrite !lookup_insert_ne by discriminate.
Qed.

Example create_ignores_client_retailer_id :
  let payload : gmap string value :=
    list_to_map [("order_number", VStr "A-2"); ("total_amount", VInt 3);
                 ("retailer_id", VStr (Bson.str Sample.id_bob))] in
  exists data new,
    OrderIn.validate payload = Some data
    /\ (create_order data Sample.alice Sample.id_session (Some Sample.db)).2
       = Some (<["order" := (coll Sample.db "order" ++ [new])%list]> Sample.db)
    /\ get new "retailer_id" = Some (VStr (Bson.str Sample.id_alice))
    /\ get new "status" = Some (VStr "processing").
Proof.
  intros payload. do 2 eexists. split; [reflexivity|].
  split; [reflexivity|]. split; vm_compute; reflexivity.
Qed.

(** ** What requests do to the database *)

Lemma depends_effect (a : option string) (t : Q)
    (endpoint : document -> option Database -> result body * option Database)
    (d : Database) :
  (forall cur, exists r d', endpoint cur (Some d) = (r, Some d') /\ effect d d') ->
  exists r d', depends a t endpoint (Some d) = (r, Some d') /\ effect d d'.
Proof.
  intros H. unfold depends.
  destruct (get_current_retailer a t (Some d)) as [cur| |]; [apply H|..];
    do 2 eexists; (split; [reflexivity | constructor]).
Qed.

Lemma register_raises (data : RegisterIn.t) (oid : ObjectId) (d : Database) :
  register data oid (Some d) = (Raise "NotImplementedError", Some d).
Proof. reflexivity. Qed.

Lemma handle_effect (e : env) (r : request) (d : Database) :
  exists res d', handle e r (Some d) = (res, Some d') /\ effect d d'.
Proof.
  destruct r as [lead|data|data|a|a data|a order_id data|a order_id]; simpl.
  - do 2 eexists. split; [reflexivity | constructor].
  - rewrite register_raises.
    do 2 eexists. split; [reflexivity | constructor].
  - unfold login.
    destruct (Mongo.find_one _ (coll d "retailer")) as [rec|].
    + destruct (hash_password _) as [h| |];
        [destruct (differs_from_str _ _)|..];
        do 2 eexists; (split; [reflexivity | constructor]).
    + do 2 eexists. split; [reflexivity | constructor].
  - apply depends_effect. intros cur.
    do 2 eexists. split; [reflexivity | constructor].
  - apply depends_effect. intros cur.
    do 2 eexists. split; [reflexivity | constructor].
  - apply depends_effect. intros cur. unfold update_order.
    destruct (Bson.make order_id);
      do 2 eexists; (split; [reflexivity | now constructor]).
  - apply depends_effect. intros cur. unfold delete_order.
    destruct (Bson.make order_id);
      do 2 eexists; (split; [reflexivity | now constructor]).
Qed.

(** A request sequence is a sequence of effects. *)
Lemma run_effects (trace : list (env * request)) (d : Database) :
  exists d', run trace (Some d) = Some d' /\ rtc effect d d'.
Proof.
  revert d. induction trace as [|[e r] trace IH]; intros d; simpl.
  - exists d. split; [reflexivity | apply rtc_refl].
  - destruct (handle_effect e r d) as (res & d1 & -> & Heff). simpl.
    destruct (IH d1) as (d' & -> & Hrtc).
    exists d'. split; [reflexivity | eapply rtc_l; eassumption].
Qed.

Lemma effect_sessions (d d' : Database) :
  effect d d' -> coll d "session" `prefix_of` coll d' "session".
Proof.
  intros []; rewrite ?coll_insert, ?coll_alter by assumption; simpl;
    try reflexivity.
  now apply prefix_app_r.
Qed.

Lemma effect_retailers_eq (d d' : Database) :
  effect d d' -> coll d' "retailer" = coll d "retailer".
Proof.
  intros []; rewrite ?coll_insert, ?coll_alter by assumption; reflexivity.
Qed.

Lemma effects_retailers_eq (d d' : Database) :
  rtc effect d d' -> coll d' "retailer" = coll d "retailer".
Proof.
  induction 1 as [|d d1 d' H _ IH]; [reflexivity|].
  now rewrite IH, (effect_retailers_eq _ _ H).
Qed.

Lemma effect_retailers (d d' : Database) :
  effect d d' -> coll d "retailer" `prefix_of` coll d' "retailer".
Proof. intros H. now rewrite (effect_retailers_eq _ _ H). Qed.

Lemma effects_sessions (d d' : Database) :
  rtc effect d d' -> coll d "session" `prefix_of` coll d' "session".
Proof.
  induction 1 as [|d d1 d' H _ IH]; [reflexivity|].
  etrans; [exact (effect_sessions _ _ H) | exact IH].
Qed.

Lemma effects_retailers (d d' : Database) :
  rtc effect d d' -> coll d "retailer" `prefix_of` coll d' "retailer".
Proof.
  induction 1 as [|d d1 d' H _ IH]; [reflexivity|].
  etrans; [exact (effect_retailers _ _ H) | exact IH].
Qed.

Lemma find_one_prefix (q : Mongo.filter) (c c' : Collection) (x : document) :
  c `prefix_of` c' -> Mongo.find_one q c = Some x -> Mongo.find_one q c' = Some x.
Proof.
  intros [k ->] H. now rewrite find_one_app, H.
Qed.

(** ** Registration *)

(** C9. E-mail uniqueness at registration, as the code has it: with a
    database, [register] raises [NotImplementedError] when it takes the
    truth value of the handle ([if db]), before it looks for the e-mail
    address; the answer is the same 500 whether or not a retailer with the
    address is stored, never the 400 "Account already exists", and nothing
    is inserted.  Without a database the check is skipped and the call
    fails as well.  So no sequence of requests changes the stored
    retailers. *)
Theorem register_never_checks_email (data : RegisterIn.t) (oid : ObjectId) :
  (forall d, register data oid (Some d) = (Raise "NotImplementedError", Some d))
  /\ (forall d r,
        r ∈ coll d "retailer" ->
        get r "email" = Some (VStr (RegisterIn.email data)) ->
        (register data oid (Some d)).1 <> HTTPException 400 "Account already exists"
        /\ status_of (register data oid (Some d)).1 = 500%Z)
  /\ (exists e, register data oid None = (Raise e, None))
  /\ (forall (trace : list (env * request)) (d : Database),
        exists d', run trace (Some d) = Some d'
                   /\ coll d' "retailer" = coll d "retailer").
Proof.
  split; [|split; [|split]].
  - intros d. apply register_raises.
  - intros d r _ _. rewrite register_raises. split; [discriminate | reflexivity].
  - unfold register. simpl.
    destruct (hash_password _) as [h| |] eqn:E; simpl; eauto.
    unfold hash_password in E. destruct (Py.encode _); discriminate.
  - intros trace d. destruct (run_effects trace d) as (d' & Hrun & Hrtc).
    exists d'. split; [assumption | now apply effects_retailers_eq].
Qed.

Lemma register_never_checks_email_witness :
  Sample.alice ∈ coll Sample.db "retailer"
  /\ get Sample.alice "email" = Some (VStr "a@x.com")
  /\ (register {| RegisterIn.email := "a@x.com"; RegisterIn.password := Py.text "pw2";
                  RegisterIn.company := None; RegisterIn.contact_name := None |}
        Sample.id_session2 (Some Sample.db)).1
     <> HTTPException 400 "Account already exists"
  /\ status_of
       (register {| RegisterIn.email := "a@x.com"; RegisterIn.password := Py.text "pw2";
                    RegisterIn.company := None; RegisterIn.contact_name := None |}
          Sample.id_session2 (Some Sample.db)).1 = 500%Z.
Proof.
  assert (Hin : Sample.alice ∈ coll Sample.db "retailer")
    by (vm_compute; apply list_elem_of_here).
  split; [exact Hin|]. split; [reflexivity|].
  apply (proj1 (proj2 (register_never_checks_email
           {| RegisterIn.email := "a@x.com"; RegisterIn.password := Py.text "pw2";
              RegisterIn.company := None; RegisterIn.contact_name := None |}
           Sample.id_session2)) Sample.db Sample.alice Hin).
  reflexivity.
Defined.

(** ** The credential hash *)

Lemma digit_lower (n : N) : Hex.is_lower_digit (Hex.digit (n mod 16)) = true.
Proof.
  assert (H : (n mod 16 < 16)%N) by (apply N.mod_lt; discriminate).
  destruct (n mod 16)%N as [|p]; [reflexivity|].
  do 4 (try destruct p as [p|p|]); try reflexivity; exfalso; lia.
Qed.

Lemma hexdigest_length (m : string) :
  String.length (Hashlib.sha256_hexdigest m) = 64.
Proof.
  unfold Hashlib.sha256_hexdigest.
  generalize (Hashlib.digest_words m). intros r. reflexivity.
Qed.

Lemma hexdigest_lower (m : string) :
  Forall (fun c => Hex.is_lower_digit c = true)
    (list_ascii_of_string (Hashlib.sha256_hexdigest m)).
Proof.
  unfold Hashlib.sha256_hexdigest.
  generalize (Hashlib.digest_words m). intros r.
  unfold Hex.of_word32. simpl.
  repeat (apply Forall_cons; split; [apply digit_lower|]).
  apply Forall_nil_2.
Qed.

Lemma string_app_assoc (a b c : string) : (a ++ b) ++ c = a ++ (b ++ c).
Proof.
  induction a as [|x a IH]; [reflexivity|].
  change (String x ((a ++ b) ++ c) = String x (a ++ (b ++ c))).
  now rewrite IH.
Qed.

(** Only a surrogate has no UTF-8 encoding. *)
Lemma utf8_None (c : N) :
  (c < 0x110000)%N -> Py.utf8 c = None <-> Py.surrogate c.
Proof.
  intros Hc. unfold Py.utf8, Py.surrogate.
  repeat match goal with
         | |- context [(?a <? ?b)%N] => destruct (N.ltb_spec a b)
         | |- context [(?a <=? ?b)%N] => destruct (N.leb_spec a b)
         end; simpl; split; try discriminate; try lia; reflexivity.
Qed.

Lemma encode_app (a b : Py.str) :
  Py.encode (a ++ b)%list =
  match Py.encode a, Py.encode b with
  | Some x, Some y => Some (x ++ y)
  | _, _ => None
  end.
Proof.
  induction a as [|c a IH]; simpl.
  - now destruct (Py.encode b).
  - destruct (Py.utf8 c) as [bs|]; [|reflexivity]. rewrite IH.
    destruct (Py.encode a), (Py.encode b); try reflexivity.
    now rewrite string_app_assoc.
Qed.

(** [s.encode()] raises exactly for a text with a surrogate. *)
Lemma encode_None (s : Py.str) :
  Py.code_points s -> Py.encode s = None <-> Exists Py.surrogate s.
Proof.
  induction 1 as [|c s Hc _ IH]; simpl.
  - rewrite Exists_nil. split; [discriminate | tauto].
  - rewrite Exists_cons, <- IH, <- (utf8_None c Hc).
    destruct (Py.utf8 c), (Py.encode s); split; intros; try tauto;
      try discriminate; intuition discriminate.
Qed.

Lemma hash_password_encode (p : Py.str) :
  hash_password p =
  match Py.encode p with
  | Some bytes => Ok (SALT ++ "$" ++ Hashlib.sha256_hexdigest (SALT ++ bytes))
  | None => Raise "UnicodeEncodeError"
  end.
Proof.
  unfold hash_password. rewrite encode_app.
  change (Py.encode (Py.text SALT)) with (Some SALT).
  now destruct (Py.encode p).
Qed.

Lemma hash_password_cases (p : Py.str) :
  (exists h, hash_password p = Ok h) \/ hash_password p = Raise "UnicodeEncodeError".
Proof. rewrite hash_password_encode. destruct (Py.encode p); eauto. Qed.

(** C8, as the code has it. Credential hashing: [hash_password] is a function of the plaintext
    alone.  It raises [UnicodeEncodeError] exactly for a plaintext with a
    surrogate code point; for every other plaintext its value is the salt,
    a ["$"] and the SHA-256 digest of the salt followed by the UTF-8 bytes
    of the plaintext, written as 64 lower-case hexadecimal digits; the salt
    and the digest are read back by splitting at the first ["$"]; and
    comparing a stored hash with it, as [login] does, accepts exactly the
    stored hashes equal to it.  The digests of six plaintexts (the salted
    text 17, 20, 55, 56, 64 and 34 bytes long, the last with characters of
    two, three and four bytes) are those of SHA-256. *)
Theorem hash_password_form (p : Py.str) :
  Py.code_points p ->
  (hash_password p = Raise "UnicodeEncodeError" <-> Exists Py.surrogate p)
  /\ (~ Exists Py.surrogate p ->
      exists bytes : string,
        Py.encode p = Some bytes
        /\ let digest := Hashlib.sha256_hexdigest (SALT ++ bytes) in
           hash_password p = Ok (SALT ++ "$" ++ digest)
           /\ String.length digest = 64
           /\ Forall (fun c => Hex.is_lower_digit c = true)
                (list_ascii_of_string digest)
           /\ Py.split1 "$" (SALT ++ "$" ++ digest) = (SALT, Some digest)
           /\ (forall stored : string,
                 differs_from_str (Some (VStr stored)) (SALT ++ "$" ++ digest) = false
                 <-> stored = SALT ++ "$" ++ digest))
  /\ hash_password [] = Ok
       "ld_static_salt_v1$49fd9d74f6057bb7f83e431fa45179a554dfb1accc178a7cc6e84660c6185fbf"
  /\ hash_password (Py.text "pw1") = Ok
       "ld_static_salt_v1$1cb93a1f421d1e32ea607b03244f54fb9b251fd4c2a9f5e0f5a3233af0c1b382"
  /\ hash_password (repeat 97%N 38) = Ok
       "ld_static_salt_v1$f4885fa5f6094b822f1da350a1d0bdd6f379416862593a0ad5bce902c9cb58a1"
  /\ hash_password (repeat 98%N 39) = Ok
       "ld_static_salt_v1$506fec7d65868ff61474410c60b88cb98b5098e4207209ac9f9cd48027986bc1"
  /\ hash_password (repeat 99%N 47) = Ok
       "ld_static_salt_v1$31471b83f011a9631c9b417d34dda64311cf4873551fc4c5fdeb46a18ad28891"
  /\ hash_password [112; 228; 115; 115; 119; 246; 114; 100; 8364; 128512]%N = Ok
       "ld_static_salt_v1$f709d483db1050fefa75249427928981f92273d0ec8e8bfad78c723407f792c9".
Proof.
  intros Hp. split; [|split].
  - rewrite hash_password_encode, <- (encode_None p Hp).
    destruct (Py.encode p); split; congruence.
  - intros Hs. rewrite <- (encode_None p Hp) in Hs.
    rewrite hash_password_encode.
    destruct (Py.encode p) as [bytes|]; [|contradiction].
    exists bytes. split; [reflexivity|]. cbv zeta.
    split; [reflexivity|].
    split; [apply hexdigest_length|]. split; [apply hexdigest_lower|].
    split.
    + generalize (Hashlib.sha256_hexdigest (SALT ++ bytes)). intros s. reflexivity.
    + intros stored. simpl. rewrite negb_false_iff. apply String.eqb_eq.
  - repeat split; vm_compute; reflexivity.
Qed.

Lemma hash_password_form_witness :
  (exists bytes : string,
      Py.encode [112; 228; 8364; 128512]%N = Some bytes
      /\ String.length (Hashlib.sha256_hexdigest (SALT ++ bytes)) = 64)
  /\ hash_password [112; 0xD800]%N = Raise "UnicodeEncodeError".
Proof.
  split.
  - destruct (proj1 (proj2 (hash_password_form [112; 228; 8364; 128512]%N
                 ltac:(repeat constructor))))
      as (bytes & H & _ & Hl & _).
    + intros H. repeat (apply Exists_cons in H as [H|H];
                          [unfold Py.surrogate in H; lia|]).
      now apply Exists_nil in H.
    + exists bytes. split; assumption.
  - apply (proj1 (hash_password_form [112; 0xD800]%N ltac:(repeat constructor))).
    apply Exists_cons_tl, Exists_cons_hd. unfold Py.surrogate. lia.
Defined.

(** C8, as the specification states it, fails for a plaintext with a lone
    surrogate: hashing raises. *)
Lemma hash_password_raises :
  Py.code_points [0xD800%N]
  /\ hash_password [0xD800%N] = Raise "UnicodeEncodeError"
  /\ ~ exists h, hash_password [0xD800%N] = Ok h.
Proof.
  split; [repeat constructor|]. split; [reflexivity|].
  intros [h H]. discriminate H.
Qed.

(** ** Rounding to binary64 *)

Lemma pow2_pos (e : Z) : (0 < 2 ^ e)%Q.
Proof. now apply Qpower_0_lt. Qed.

Lemma pow2_add (e k : Z) : (2 ^ (e + k) == 2 ^ e * 2 ^ k)%Q.
Proof. now apply Qpower_plus. Qed.

Lemma pow2_Z (n : Z) : (0 <= n)%Z -> (2 ^ n == inject_Z (2 ^ n))%Q.
Proof. intros H. now rewrite Zpower_Qpower. Qed.

Lemma log2_bounds (a : Z) :
  (0 < a)%Z ->
  (2 ^ Z.log2 a <= inject_Z a)%Q /\ (inject_Z a < 2 * 2 ^ Z.log2 a)%Q.
Proof.
  intros Ha. destruct (Z.log2_spec a Ha) as [H1 H2].
  pose proof (Z.log2_nonneg a) as Hl.
  rewrite pow2_Z by assumption. split.
  - now rewrite <- Zle_Qle.
  - change 2%Q with (inject_Z 2). rewrite <- inject_Z_mult, <- Zlt_Qlt.
    rewrite Z.pow_succ_r in H2 by assumption. exact H2.
Qed.

(** The exponent brackets the number. *)
Lemma exponent_spec (x : Q) :
  (0 < x)%Q ->
  (2 ^ Float.exponent x <= x)%Q /\ (x < 2 * 2 ^ Float.exponent x)%Q.
Proof.
  intros Hx. destruct x as [a b].
  assert (Ha : (0 < a)%Z).
  { unfold Qlt in Hx. simpl in Hx. lia. }
  destruct (log2_bounds a Ha) as [Ha1 Ha2].
  destruct (log2_bounds (Zpos b) eq_refl) as [Hb1 Hb2].
  unfold Float.exponent. cbn [Qnum Qden].
  set (la := Z.log2 a) in *. set (lb := Z.log2 (Zpos b)) in *.
  pose proof (pow2_add (la - lb) lb) as E0.
  replace (la - lb + lb)%Z with la in E0 by lia.
  pose proof (pow2_add (la - lb - 1) 1) as E1.
  replace (la - lb - 1 + 1)%Z with (la - lb)%Z in E1 by lia.
  change (2 ^ 1)%Q with 2%Q in E1.
  pose proof (pow2_pos (la - lb)) as P0.
  pose proof (pow2_pos (la - lb - 1)) as P1.
  pose proof (pow2_pos lb) as Pb.
  pose proof (Qmake_Qdiv a b) as Ex.
  assert (Eab : ((a # b) * inject_Z (Zpos b) == inject_Z a)%Q).
  { rewrite Ex. field. discriminate. }
  assert (Hbpos : (0 < inject_Z (Zpos b))%Q) by reflexivity.
  clear Ex.
  generalize dependent (inject_Z a). generalize dependent (inject_Z (Zpos b)).
  generalize dependent (2 ^ la)%Q. generalize dependent (2 ^ lb)%Q.
  intros L PL A HA1 HA2 B.
  destruct (Qle_bool (2 ^ (la - lb)) (a # b)) eqn:E.
  - apply Qle_bool_iff in E. intros. split; [assumption|]. nra.
  - intros. assert (E' : ~ (2 ^ (la - lb) <= a # b)%Q) by now rewrite <- Qle_bool_iff, E.
    apply Qnot_le_lt in E'. split; [nra | nra].
Qed.

Lemma exponent_unique (x : Q) (e : Z) :
  (2 ^ e <= x)%Q -> (x < 2 * 2 ^ e)%Q -> Float.exponent x = e.
Proof.
  intros H1 H2.
  assert (Hx : (0 < x)%Q) by (pose proof (pow2_pos e); lra).
  destruct (exponent_spec x Hx) as [G1 G2].
  set (E := Float.exponent x) in *.
  assert (L1 : (e < E + 1)%Z).
  { apply (Qpower_lt_compat_l_inv 2); [|reflexivity].
    rewrite pow2_add. change (2 ^ 1)%Q with 2%Q. lra. }
  assert (L2 : (E < e + 1)%Z).
  { apply (Qpower_lt_compat_l_inv 2); [|reflexivity].
    rewrite pow2_add. change (2 ^ 1)%Q with 2%Q. lra. }
  lia.
Qed.

Lemma round_half_even_comp (x y : Q) :
  (x == y)%Q -> Float.round_half_even x = Float.round_half_even y.
Proof.
  intros H. unfold Float.round_half_even.
  rewrite (Qfloor_comp _ _ H).
  assert (E : (x - inject_Z (Qfloor y) == y - inject_Z (Qfloor y))%Q) by lra.
  now rewrite (Qcompare_comp _ _ E _ _ (Qeq_refl (1 # 2))).
Qed.

Lemma round_half_even_Z (m : Z) : Float.round_half_even (inject_Z m) = m.
Proof.
  unfold Float.round_half_even. rewrite Qfloor_Z.
  assert (E : (inject_Z m - inject_Z m ?= 1 # 2)%Q = Lt).
  { rewrite <- Qlt_alt. lra. }
  now rewrite E.
Qed.

(** The nearest integer is at most a half away. *)
Lemma round_half_even_near (x : Q) :
  (Qabs (inject_Z (Float.round_half_even x) - x) <= 1 # 2)%Q.
Proof.
  unfold Float.round_half_even.
  pose proof (Qfloor_le x) as H1. pose proof (Qlt_floor x) as H2.
  rewrite inject_Z_plus in H2. change (inject_Z 1) with 1%Q in H2.
  apply Qabs_Qle_condition.
  destruct (x - inject_Z (Qfloor x) ?= 1 # 2)%Q eqn:E.
  - apply Qeq_alt in E.
    destruct (Z.even (Qfloor x)); rewrite ?inject_Z_plus;
      change (inject_Z 1) with 1%Q; lra.
  - apply Qlt_alt in E. lra.
  - apply Qgt_alt in E. rewrite inject_Z_plus. change (inject_Z 1) with 1%Q. lra.
Qed.

Lemma round_pos_eq (x : Q) :
  (0 < x)%Q ->
  (Float.round x == inject_Z (Float.round_half_even (x / Float.ulp x)) * Float.ulp x)%Q.
Proof.
  intros Hx. destruct x as [[|p|p] b]; try discriminate Hx.
  unfold Float.round, Float.round_pos. cbn [Qnum].
  rewrite Qred_correct. reflexivity.
Qed.

(** Rounding moves a number by at most half a unit in the last place. *)
Lemma round_near (x : Q) :
  (0 < x)%Q -> (Qabs (Float.round x - x) <= (1 # 2) * Float.ulp x)%Q.
Proof.
  intros Hx. rewrite (round_pos_eq x Hx).
  pose proof (round_half_even_near (x / Float.ulp x)) as H.
  assert (Hu : (0 < Float.ulp x)%Q) by apply pow2_pos.
  set (u := Float.ulp x) in *.
  apply Qabs_Qle_condition in H. apply Qabs_Qle_condition.
  assert (E : (x == x / u * u)%Q) by (field; lra).
  remember (inject_Z (Float.round_half_even (x / u))) as n eqn:En. clear En.
  remember (x / u)%Q as y eqn:Ey. clear Ey. destruct H as [H1 H2].
  clearbody u.
  assert (G1 : (0 <= (n - y + (1 # 2)) * u)%Q) by (apply Qmult_le_0_compat; lra).
  assert (G2 : (0 <= ((1 # 2) - (n - y)) * u)%Q) by (apply Qmult_le_0_compat; lra).
  split; lra.
Qed.

(** The relative error of rounding a number from 1 on is at most
    [2^-53]. *)
Lemma round_relative (x : Q) :
  (1 <= x)%Q -> (Qabs (Float.round x - x) <= x * 2 ^ (-53))%Q.
Proof.
  intros Hx. assert (H0 : (0 < x)%Q) by lra.
  eapply Qle_trans; [apply (round_near x H0)|].
  destruct (exponent_spec x H0) as [G1 G2].
  assert (He : (0 <= Float.exponent x)%Z).
  { assert (L : (0 < Float.exponent x + 1)%Z); [|lia].
    apply (Qpower_lt_compat_l_inv 2); [|reflexivity].
    rewrite pow2_add. change (2 ^ 0)%Q with 1%Q. change (2 ^ 1)%Q with 2%Q. lra. }
  unfold Float.ulp. rewrite Z.max_l by lia.
  replace (Float.exponent x - 52)%Z with (Float.exponent x + (-53) + 1)%Z by lia.
  rewrite !pow2_add. change (2 ^ 1)%Q with 2%Q.
  pose proof (pow2_pos (-53)) as P.
  generalize dependent (2 ^ Float.exponent x)%Q. intros y G1 G2.
  generalize dependent (2 ^ (-53))%Q. intros z P.
  nra.
Qed.

(** A number with 53 significant bits is a float. *)
Lemma round_exact (x : Q) (e m : Z) :
  (2 ^ e <= x)%Q -> (x < 2 * 2 ^ e)%Q -> (-1022 <= e)%Z ->
  (x == inject_Z m * 2 ^ (e - 52))%Q ->
  (Float.round x == x)%Q.
Proof.
  intros H1 H2 He Hm.
  assert (Hx : (0 < x)%Q) by (pose proof (pow2_pos e); lra).
  rewrite (round_pos_eq x Hx). unfold Float.ulp.
  rewrite (exponent_unique x e H1 H2), Z.max_l by lia.
  pose proof (pow2_pos (e - 52)) as P.
  assert (E : (x / 2 ^ (e - 52) == inject_Z m)%Q).
  { rewrite Hm. field. lra. }
  rewrite (round_half_even_comp _ _ E), round_half_even_Z. now rewrite Hm.
Qed.

(** A float has 53 significant bits. *)
Lemma round_fixed (x : Q) (e : Z) :
  (2 ^ e <= x)%Q -> (x < 2 * 2 ^ e)%Q -> (-1022 <= e)%Z ->
  (Float.round x == x)%Q ->
  exists m : Z, (x == inject_Z m * 2 ^ (e - 52))%Q.
Proof.
  intros H1 H2 He Hr.
  assert (Hx : (0 < x)%Q) by (pose proof (pow2_pos e); lra).
  rewrite (round_pos_eq x Hx) in Hr. unfold Float.ulp in Hr.
  rewrite (exponent_unique x e H1 H2), Z.max_l in Hr by lia.
  eexists. symmetry. exact Hr.
Qed.

(** The clock readings from [2^30] seconds (January 2004) to a week before
    [2^31] seconds (January 2038) are multiples of [2^-22]; so are the sums,
    which are below [2^31]: the float addition is exact. *)
Lemma add_week_exact (t : Q) :
  (Float.round t == t)%Q ->
  (2 ^ 30 <= t)%Q -> (t + 604800 < 2 ^ 31)%Q ->
  (Float.add t 604800 == t + 604800)%Q.
Proof.
  intros Hr H1 H2.
  assert (P : (2 ^ 31 == 2 * 2 ^ 30)%Q) by reflexivity.
  destruct (round_fixed t 30) as [m Hm]; [lra | lra | lia | assumption |].
  unfold Float.add.
  apply (round_exact _ 30 (m + 604800 * 2 ^ 22)); [lra | lra | lia |].
  rewrite Hm, inject_Z_plus.
  change (inject_Z (604800 * 2 ^ 22)) with (604800 * 2 ^ 22)%Q.
  change (30 - 52)%Z with (-22)%Z.
  change (2 ^ (-22))%Q with (/ 2 ^ 22)%Q. field.
Qed.

(** ** Login *)

Lemma differs_from_str_false (x : option value) (s : string) :
  differs_from_str x s = false <-> x = Some (VStr s).
Proof.
  destruct x as [[]|]; simpl; try (split; [discriminate | congruence]).
  rewrite negb_false_iff, String.eqb_eq. split; congruence.
Qed.

(** C4, as the code has it. Login anti-enumeration: when no stored retailer has the e-mail
    address, [login] raises the 401 "Invalid credentials" and the database
    is as before, whatever the password.  When the password has a hash:
    if the retailer found under the e-mail address has that hash, [login]
    returns the token and stores its session; if it has another one,
    [login] raises the same 401 "Invalid credentials" and the database is
    as before.  When hashing the password raises, [login] raises that
    exception for every stored e-mail address. *)
Theorem login_anti_enumeration (d : Database) (data : LoginIn.t) (t : Q)
    (tok : string) (oid : ObjectId) :
  let q := [("email", VStr (LoginIn.email data))] in
  ((forall r, r ∈ coll d "retailer" ->
              get r "email" <> Some (VStr (LoginIn.email data))) ->
     login data t tok oid (Some d)
       = (HTTPException 401 "Invalid credentials", Some d))
  /\ (forall h, hash_password (LoginIn.password data) = Ok h ->
        (forall rec,
            Mongo.find_one q (coll d "retailer") = Some rec ->
            get rec "password_hash" = Some (VStr h) ->
            login data t tok oid (Some d)
              = (Ok (TokenOut tok),
                 Some (<["session" :=
                           (coll d "session" ++
                            [Doc oid (Session.model_dump
                               {| Session.token := tok;
                                  Session.retailer_id := Bson.str (_id rec);
                                  Session.expires_at := Float.add t 604800 |})])%list]> d)))
        /\ (forall rec,
              Mongo.find_one q (coll d "retailer") = Some rec ->
              get rec "password_hash" <> Some (VStr h) ->
              login data t tok oid (Some d)
                = (HTTPException 401 "Invalid credentials", Some d)))
  /\ (forall e rec,
        hash_password (LoginIn.password data) = Raise e ->
        Mongo.find_one q (coll d "retailer") = Some rec ->
        login data t tok oid (Some d) = (Raise e, Some d)).
Proof.
  intros q. unfold login. fold q. split; [|split].
  - intros Hno.
    destruct (Mongo.find_one q (coll d "retailer")) as [rec|] eqn:E; [|reflexivity].
    exfalso. apply find_one_Some in E as [Hin Hm].
    apply matches_one in Hm. exact (Hno rec Hin Hm).
  - intros h ->. split.
    + intros rec -> Hh.
      apply differs_from_str_false in Hh. rewrite Hh. reflexivity.
    + intros rec -> Hh.
      destruct (differs_from_str (get rec "password_hash") h) eqn:E; [reflexivity|].
      apply differs_from_str_false in E. contradiction.
  - intros e rec -> ->. reflexivity.
Qed.

Lemma login_anti_enumeration_witness :
  (exists d',
      login {| LoginIn.email := "a@x.com"; LoginIn.password := Py.text "pw1" |}
        5 "t" Sample.id_session (Some Sample.db) = (Ok (TokenOut "t"), Some d'))
  /\ login {| LoginIn.email := "nobody@x.com"; LoginIn.password := Py.text "pw1" |}
       5 "t" Sample.id_session (Some Sample.db)
     = (HTTPException 401 "Invalid credentials", Some Sample.db)
  /\ login {| LoginIn.email := "a@x.com"; LoginIn.password := Py.text "wrong" |}
       5 "t" Sample.id_session (Some Sample.db)
     = (HTTPException 401 "Invalid credentials", Some Sample.db).
Proof.
  split; [|split].
  - eexists.
    apply (proj1 (proj1 (proj2 (login_anti_enumeration Sample.db
             {| LoginIn.email := "a@x.com"; LoginIn.password := Py.text "pw1" |}
             5 "t" Sample.id_session)) _ eq_refl) Sample.alice);
      vm_compute; reflexivity.
  - apply (proj1 (login_anti_enumeration Sample.db
             {| LoginIn.email := "nobody@x.com"; LoginIn.password := Py.text "pw1" |}
             5 "t" Sample.id_session)).
    apply (proj1 (Forall_forall
             (fun r => get r "email" <> Some (VStr "nobody@x.com")) _)).
    vm_compute. repeat constructor; discriminate.
  - apply (proj2 (proj1 (proj2 (login_anti_enumeration Sample.db
             {| LoginIn.email := "a@x.com"; LoginIn.password := Py.text "wrong" |}
             5 "t" Sample.id_session)) _ eq_refl) Sample.alice).
    + vm_compute. reflexivity.
    + vm_compute. discriminate.
Defined.

(** C4, as the specification states it, fails for a password with a lone
    surrogate: it matches no stored account, and the answer tells a stored
    e-mail address (the exception, a 500) from an unknown one (the 401). *)
Lemma login_surrogate_password :
  let known := {| LoginIn.email := "a@x.com"; LoginIn.password := [0xD800%N] |} in
  let unknown := {| LoginIn.email := "nobody@x.com"; LoginIn.password := [0xD800%N] |} in
  login known 5 "t" Sample.id_session (Some Sample.db)
    = (Raise "UnicodeEncodeError", Some Sample.db)
  /\ login unknown 5 "t" Sample.id_session (Some Sample.db)
     = (HTTPException 401 "Invalid credentials", Some Sample.db)
  /\ status_of (login known 5 "t" Sample.id_session (Some Sample.db)).1 = 500%Z
  /\ status_of (login unknown 5 "t" Sample.id_session (Some Sample.db)).1 = 401%Z.
Proof. repeat split; vm_compute; reflexivity. Qed.

(** ** Sessions *)

(** A header [Bearer <tok>] passes the scheme check with token [tok]. *)
Lemma bearer_header (tok : string) (t : Q) (d : Database) :
  get_current_retailer (Some ("Bearer " ++ tok)) t (Some d) =
  match Mongo.find_one [("token", VStr tok)] (coll d "session") with
  | None => HTTPException 401 "Invalid or expired token"
  | Some sess =>
      match as_number (default (VInt 0) (get sess "expires_at")) with
      | None => Raise "TypeError"
      | Some expires_at =>
          if lt_num expires_at t
          then HTTPException 401 "Invalid or expired token"
          else
            match get sess "retailer_id" with
            | None => Raise "KeyError"
            | Some x =>
                match object_id x with
                | Raise e => Raise e
                | HTTPException c m => HTTPException c m
                | Ok q =>
                    match q ≫= fun v =>
                            Mongo.find_one [("_id", v)] (coll d "retailer") with
                    | None => HTTPException 401 "Retailer not found"
                    | Some retailer => Ok retailer
                    end
                end
            end
      end
  end.
Proof. reflexivity. Qed.

Lemma lt_num_true (x y : Q) : lt_num x y = true <-> (x < y)%Q.
Proof.
  unfold lt_num. rewrite Qlt_alt.
  destruct (x ?= y)%Q; split; congruence.
Qed.

Lemma lt_num_false (x y : Q) : lt_num x y = false <-> (y <= x)%Q.
Proof.
  rewrite <- not_true_iff_false, lt_num_true. split.
  - apply Qnot_lt_le.
  - apply Qle_not_lt.
Qed.

Lemma login_Ok (d d1 : Database) (data : LoginIn.t) (t : Q) (tok : string)
    (oid : ObjectId) (b : body) :
  login data t tok oid (Some d) = (Ok b, Some d1) ->
  exists rec,
    rec ∈ coll d "retailer"
    /\ d1 = <["session" :=
               (coll d "session" ++
                [Doc oid (Session.model_dump
                   {| Session.token := tok;
                      Session.retailer_id := Bson.str (_id rec);
                      Session.expires_at := Float.add t 604800 |})])%list]> d.
Proof.
  unfold login.
  destruct (Mongo.find_one _ (coll d "retailer")) as [rec|] eqn:E; [|discriminate].
  destruct (hash_password _) as [h| |]; try discriminate.
  destruct (differs_from_str _ _); [discriminate|].
  intros [= _ <-]. exists rec. split; [|reflexivity].
  now apply find_one_Some in E as [? _].
Qed.

(** C5, as the code has it. Session expiry: the session a successful
    [login] at time [t] stores has as [expires_at] the float sum of [t]
    and 604800.  The sum is within
    a relative error of [2^-53] of [t + 604800], and it is [t + 604800]
    for a clock reading [t] between [2^30] seconds and a week before [2^31]
    seconds.  After any further sequence of requests the session found
    under the token is still that very document; and in every such later
    database the token is accepted at every time up to the stored
    [expires_at], hence at every time strictly before it, and rejected with
    the 401 "Invalid or expired token" at every time strictly after it.
    The token is assumed not to collide with a stored one. *)
Theorem session_expiry (d d1 : Database) (data : LoginIn.t) (t : Q)
    (tok : string) (oid : ObjectId) (trace : list (env * request)) :
  login data t tok oid (Some d) = (Ok (TokenOut tok), Some d1) ->
  (forall s, s ∈ coll d "session" -> get s "token" <> Some (VStr tok)) ->
  let expires_at := Float.add t 604800 in
  exists sess d2,
    coll d1 "session" = (coll d "session" ++ [sess])%list
    /\ get sess "expires_at" = Some (VFloat expires_at)
    /\ ((0 <= t)%Q ->
        (Qabs (expires_at - (t + 604800)) <= (t + 604800) * 2 ^ (-53))%Q)
    /\ ((Float.round t == t)%Q -> (2 ^ 30 <= t)%Q -> (t + 604800 < 2 ^ 31)%Q ->
        (expires_at == t + 604800)%Q)
    /\ run trace (Some d1) = Some d2
    /\ Mongo.find_one [("token", VStr tok)] (coll d2 "session") = Some sess
    /\ (forall t', (t' <= expires_at)%Q ->
          exists r, get_current_retailer (Some ("Bearer " ++ tok)) t' (Some d2) = Ok r)
    /\ (forall t', (expires_at < t')%Q ->
          get_current_retailer (Some ("Bearer " ++ tok)) t' (Some d2)
            = HTTPException 401 "Invalid or expired token").
Proof.
  intros Hlogin Hfresh expires_at.
  apply login_Ok in Hlogin as (rec & Hrec & ->).
  set (sess := Doc oid _).
  destruct (run_effects trace (<["session" := (coll d "session" ++ [sess])%list]> d))
    as (d2 & Hrun & Hrtc).
  assert (Hs1 : coll (<["session" := (coll d "session" ++ [sess])%list]> d) "session"
                = (coll d "session" ++ [sess])%list).
  { rewrite coll_insert. now rewrite decide_True. }
  assert (Hfind : Mongo.find_one [("token", VStr tok)] (coll d2 "session") = Some sess).
  { eapply find_one_prefix; [exact (effects_sessions _ _ Hrtc)|].
    assert (Hnone : Mongo.find_one [("token", VStr tok)] (coll d "session") = None).
    { apply find_one_None. intros s Hs.
      apply not_true_is_false. rewrite matches_one. now apply Hfresh. }
    assert (Hm : Mongo.matches [("token", VStr tok)] sess = true)
      by now apply matches_one.
    rewrite Hs1, find_one_app, Hnone. unfold Mongo.find_one. now rewrite Hm. }
  assert (Hret : exists r,
             Mongo.find_one [("_id", VOid (_id rec))] (coll d2 "retailer") = Some r).
  { destruct (find_one_is_Some [("_id", VOid (_id rec))] (coll d "retailer") rec Hrec)
      as [r Hr]; [now apply matches_one|].
    exists r. eapply find_one_prefix; [|exact Hr].
    etrans; [|exact (effects_retailers _ _ Hrtc)].
    rewrite coll_insert. now rewrite decide_False. }
  exists sess, d2.
  split; [assumption|]. split; [reflexivity|].
  split; [|split; [|split; [assumption|split; [assumption|split]]]].
  - intros Ht. apply round_relative. lra.
  - apply add_week_exact.
  - intros t' Ht'. rewrite bearer_header, Hfind.
    change (as_number (default (VInt 0) (get sess "expires_at")))
      with (Some expires_at).
    cbv beta iota.
    rewrite (proj2 (lt_num_false _ _) Ht').
    change (get sess "retailer_id") with (Some (VStr (Bson.str (_id rec)))).
    cbv beta iota. unfold object_id. rewrite make_str. cbn [id_value mbind option_bind].
    destruct Hret as [r ->]. eauto.
  - intros t' Ht'. rewrite bearer_header, Hfind.
    change (as_number (default (VInt 0) (get sess "expires_at")))
      with (Some expires_at).
    cbv beta iota.
    now rewrite (proj2 (lt_num_true _ _) Ht').
Qed.

Lemma session_expiry_witness :
  let expires_at := Float.add Sample.clock 604800 in
  exists sess d2,
    coll Sample.db_clock "session" = (coll Sample.db "session" ++ [sess])%list
    /\ get sess "expires_at" = Some (VFloat expires_at)
    /\ (expires_at == Sample.clock + 604800)%Q
    /\ run Sample.later (Some Sample.db_clock) = Some d2
    /\ Mongo.find_one [("token", VStr "tok-2")] (coll d2 "session") = Some sess
    /\ (forall t', (t' <= expires_at)%Q ->
          exists r, get_current_retailer (Some ("Bearer " ++ "tok-2")) t' (Some d2) = Ok r)
    /\ (forall t', (expires_at < t')%Q ->
          get_current_retailer (Some ("Bearer " ++ "tok-2")) t' (Some d2)
            = HTTPException 401 "Invalid or expired token").
Proof.
  intros expires_at.
  destruct (session_expiry Sample.db Sample.db_clock Sample.login_alice Sample.clock
              "tok-2" Sample.id_session2 Sample.later)
    as (sess & d2 & H1 & H2 & _ & H4 & H5 & H6 & H7 & H8).
  - vm_compute. reflexivity.
  - apply (proj1 (Forall_forall (fun s => get s "token" <> Some (VStr "tok-2")) _)).
    vm_compute. repeat constructor; discriminate.
  - exists sess, d2. split; [assumption|]. split; [assumption|].
    split; [apply H4; vm_compute; congruence|].
    repeat split; assumption.
Defined.

(** C5, as the specification states it, fails in binary64: for a login at
    the last float below [2^31] seconds the stored [expires_at] is not the
    issuance time plus 604800 seconds but the next float, and the token is
    accepted at a time strictly after the issuance time plus 604800
    seconds. *)
Lemma session_expiry_rounded :
  let t := Sample.clock_2038 in
  (Float.round t == t)%Q
  /\ login Sample.login_alice t "tok-2" Sample.id_session2 (Some Sample.db)
     = (Ok (TokenOut "tok-2"), Some Sample.db_2038)
  /\ (exists sess,
        coll Sample.db_2038 "session" = (coll Sample.db "session" ++ [sess])%list
        /\ get sess "expires_at" = Some (VFloat 2148088448))
  /\ ~ (2148088448 == t + 604800)%Q
  /\ (t + 604800 < 2148088448)%Q
  /\ get_current_retailer (Some "Bearer tok-2") 2148088448 (Some Sample.db_2038)
     = Ok Sample.alice.
Proof.
  repeat split; try (vm_compute; reflexivity); try (vm_compute; discriminate).
  eexists. split; vm_compute; reflexivity.
Qed.

(** The boundary of the specification's test, for a login at time 2000. *)
Example session_expiry_boundary :
  let d2 := default ∅ (run Sample.later (Some Sample.db1)) in
  let exp := (2000 + 604800)%Q in
  Float.add 2000 604800 = exp
  /\ get_current_retailer (Some "Bearer tok-2") (exp - 1) (Some d2) = Ok Sample.alice
  /\ get_current_retailer (Some "Bearer tok-2") exp (Some d2) = Ok Sample.alice
  /\ get_current_retailer (Some "Bearer tok-2") (exp + 1) (Some d2)
     = HTTPException 401 "Invalid or expired token"
  /\ coll d2 "order" = [].
Proof. repeat split; vm_compute; reflexivity. Qed.

(** ** The [Authorization] header *)

Lemma lower_ascii_space (c : ascii) :
  Ascii.eqb c " " = Ascii.eqb (Py.lower_ascii c) " ".
Proof. destruct c as [[] [] [] [] [] [] [] []]; reflexivity. Qed.

Lemma lower_letter_not_space (c x : ascii) :
  Ascii.eqb (Py.lower_ascii c) x = true ->
  Ascii.eqb x " " = false ->
  Ascii.eqb c " " = false.
Proof.
  intros H Hx. rewrite lower_ascii_space.
  apply Ascii.eqb_eq in H. now rewrite H.
Qed.

Lemma lower_space_is_space (c : ascii) :
  Ascii.eqb (Py.lower_ascii c) " " = true -> Ascii.eqb c " " = true.
Proof. now rewrite <- lower_ascii_space. Qed.

Lemma substring_all (s : string) : String.substring 0 (String.length s) s = s.
Proof. induction s as [|c s IH]; simpl; [reflexivity | now rewrite IH]. Qed.

Ltac case_chars H :=
  repeat match type of H with
         | context [Ascii.eqb ?x ?y] =>
             destruct (Ascii.eqb x y) eqn:?; try discriminate H
         end.

(** The scheme test of the program and the one of [Spec.bearer] agree. *)
Lemma header_scheme (a : string) :
  Py.startswith (Py.lower a) "bearer "
  = String.eqb (Py.lower (String.substring 0 7 a)) "bearer ".
Proof.
  destruct a as [|c0 [|c1 [|c2 [|c3 [|c4 [|c5 [|c6 [|c7 s]]]]]]]]; simpl;
    repeat match goal with
           | |- context [Ascii.eqb ?x ?y] => destruct (Ascii.eqb x y)
           end; reflexivity.
Qed.

(** Under the scheme, the text after the first space is the token. *)
Lemma header_token (a : string) :
  String.eqb (Py.lower (String.substring 0 7 a)) "bearer " = true ->
  Py.truthy (Some a) = true
  /\ (Py.split1 " " a).2 = Some (String.substring 7 (String.length a - 7) a).
Proof.
  intros H.
  destruct a as [|c0 [|c1 [|c2 [|c3 [|c4 [|c5 [|c6 [|c7 s]]]]]]]]; simpl in H;
    try discriminate H; case_chars H.
  all: split; [reflexivity|].
  all: cbn [Py.split1].
  all:
  repeat match goal with
         | E : Ascii.eqb (Py.lower_ascii ?c) " " = true |- _ =>
             rewrite (lower_space_is_space c E); clear E
         | E : Ascii.eqb (Py.lower_ascii ?c) _ = true |- _ =>
             rewrite (lower_letter_not_space c _ E eq_refl); clear E
         end.
  all: simpl; now rewrite ?substring_all.
Qed.

(** [get_current_retailer] in terms of the token the header carries. *)
Lemma header_bearer (d : Database) (a : option string) (t : Q) :
  get_current_retailer a t (Some d) =
  match Spec.bearer a with
  | None => HTTPException 401 "Missing token"
  | Some tok => get_current_retailer (Some ("Bearer " ++ tok)) t (Some d)
  end.
Proof.
  destruct a as [a|]; [|reflexivity].
  unfold Spec.bearer.
  destruct (String.eqb (Py.lower (String.substring 0 7 a)) "bearer ") eqn:E.
  - rewrite bearer_header. unfold get_current_retailer.
    destruct (header_token a E) as [Ht Hs].
    rewrite Ht. simpl default. rewrite header_scheme, E, Hs. reflexivity.
  - unfold get_current_retailer. simpl default.
    rewrite header_scheme, E. now rewrite orb_true_r.
Qed.

(** ** Session validation *)

Lemma expired_iff (sess : document) (t e : Q) :
  as_number (default (VInt 0) (get sess "expires_at")) = Some e ->
  Spec.expired sess t <-> lt_num e t = true.
Proof.
  intros He. unfold Spec.expired. rewrite He, lt_num_true. split.
  - now intros (e' & [= <-] & H).
  - eauto.
Qed.

Lemma live_iff (sess : document) (t e : Q) :
  as_number (default (VInt 0) (get sess "expires_at")) = Some e ->
  Spec.live sess t <-> lt_num e t = false.
Proof.
  intros He. unfold Spec.live. rewrite He, lt_num_false. split.
  - now intros (e' & [= <-] & H).
  - eauto.
Qed.

Lemma not_number (sess : document) (t : Q) :
  as_number (default (VInt 0) (get sess "expires_at")) = None ->
  ~ Spec.expired sess t /\ ~ Spec.live sess t.
Proof.
  intros He. unfold Spec.expired, Spec.live. rewrite He.
  split; intros (e & [=] & _).
Qed.

Ltac outcome_leaf :=
  repeat split; intros;
  repeat match goal with
         | H : _ /\ _ |- _ => destruct H
         | H : is_Some None |- _ => destruct H as [? [=]]
         end;
  try discriminate; try congruence; try tauto;
  try solve [intuition (try discriminate; try congruence)];
  eauto.

Lemma find_one_short (bs : list byte) (c : Collection) :
  Mongo.find_one [("_id", VOidShort bs)] c = None.
Proof. apply find_one_None. intros x _. reflexivity. Qed.

Lemma found_session (d : Database) (tok : string) (sess : document) (t : Q) :
  Mongo.find_one [("token", VStr tok)] (coll d "session") = Some sess ->
  session_outcome d sess t
    (get_current_retailer (Some ("Bearer " ++ tok)) t (Some d)).
Proof.
  intros Hf. rewrite bearer_header, Hf. unfold session_outcome.
  destruct (as_number (default (VInt 0) (get sess "expires_at"))) as [e|] eqn:He.
  2:{ destruct (not_number sess t He) as [Hx Hl]. outcome_leaf. }
  pose proof (expired_iff sess t e He) as Hexp.
  pose proof (live_iff sess t e He) as Hlive.
  destruct (lt_num e t) eqn:Hlt; [outcome_leaf|].
  unfold Spec.has_retailer_ref, Spec.retailer_of.
  destruct (get sess "retailer_id") as [v|] eqn:Hr; [|outcome_leaf].
  unfold object_id, Spec.object_id_text, Bson.of_str.
  destruct v as [ | | | |rid|o| |bs]; try solve [outcome_leaf].
  - destruct (Bson.make rid) as [[o|bs]|] eqn:Ho; simpl.
    + destruct (Mongo.find_one [("_id", VOid o)] (coll d "retailer")) as [x|];
        outcome_leaf.
    + rewrite find_one_short. outcome_leaf.
    + outcome_leaf.
  - simpl.
    destruct (Mongo.find_one [("_id", VOid o)] (coll d "retailer")) as [x|];
      outcome_leaf.
  - simpl. rewrite find_one_short. outcome_leaf.
Qed.

(** C2, as the code has it. Session validation: the call returns a
    retailer exactly when the header carries a token under the bearer
    scheme, a session with exactly that token is stored, the first such
    session is not expired at the time of the call, and its [retailer_id]
    resolves to a stored retailer, which is the one returned.  It raises
    the 401 "Missing token" exactly when the header is absent or is not of
    the bearer scheme (an empty token after the scheme is looked up like any
    other); the 401 "Invalid or expired token" exactly when no session has
    the token or the session found is expired; and the 401 "Retailer not
    found" exactly when the session is live and its [retailer_id] is an
    identifier of no stored retailer: an identifier, [None], or a text
    [ObjectId] accepts, of 24 hexadecimal digits or of 24 characters that
    [bytes.fromhex] reads as fewer than twelve bytes. *)
Theorem session_validation (d : Database) (a : option string) (t : Q) :
  let r := get_current_retailer a t (Some d) in
  let found tok := Mongo.find_one [("token", VStr tok)] (coll d "session") in
  (forall ret, r = Ok ret <->
     exists tok sess,
       Spec.bearer a = Some tok /\ found tok = Some sess
       /\ Spec.live sess t /\ Spec.retailer_of d sess = Some ret)
  /\ (r = HTTPException 401 "Missing token" <-> Spec.bearer a = None)
  /\ (r = HTTPException 401 "Invalid or expired token" <->
        exists tok,
          Spec.bearer a = Some tok
          /\ (found tok = None
              \/ exists sess, found tok = Some sess /\ Spec.expired sess t))
  /\ (r = HTTPException 401 "Retailer not found" <->
        exists tok sess,
          Spec.bearer a = Some tok /\ found tok = Some sess
          /\ Spec.live sess t /\ Spec.has_retailer_ref sess
          /\ Spec.retailer_of d sess = None).
Proof.
  intros r found. subst r. rewrite header_bearer.
  destruct (Spec.bearer a) as [tok|] eqn:Hb.
  2:{ repeat split; try discriminate; try reflexivity;
        try (intros (? & ? & [=] & _)); try (intros (? & [=] & _)). }
  destruct (found tok) as [sess|] eqn:Hf; subst found; simpl in Hf.
  - destruct (found_session d tok sess t Hf) as (Hexp & Hnf & Hok & Hmiss).
    split; [|split; [|split]].
    + intros ret. rewrite Hok. split.
      * intros [? ?]. exists tok, sess. auto.
      * intros (tok' & sess' & [= <-] & Hf' & ?). rewrite Hf in Hf'.
        injection Hf' as <-. assumption.
    + split; [contradiction | discriminate].
    + rewrite Hexp. split.
      * intros ?. exists tok. split; [reflexivity|]. right. eauto.
      * intros (tok' & [= <-] & [Hn | (sess' & Hf' & ?)]); rewrite Hf in *.
        -- discriminate.
        -- now injection Hf' as <-.
    + rewrite Hnf. split.
      * intros ?. exists tok, sess. auto.
      * intros (tok' & sess' & [= <-] & Hf' & ?). rewrite Hf in Hf'.
        injection Hf' as <-. assumption.
  - rewrite bearer_header, Hf.
    split; [|split; [|split]].
    + intros ret. split; [discriminate|].
      intros (tok' & sess' & [= <-] & Hf' & _). rewrite Hf in Hf'. discriminate.
    + split; discriminate.
    + split; [|reflexivity]. intros _. exists tok. auto.
    + split; [discriminate|].
      intros (tok' & sess' & [= <-] & Hf' & _). rewrite Hf in Hf'. discriminate.
Qed.

(** C2, as the specification states it, fails: the header ["Bearer "]
    carries the empty token, which step (a) rejects as a missing token, but
    the call looks the empty token up and raises the 401 "Invalid or expired
    token". *)
Lemma empty_token_not_missing :
  Spec.bearer (Some "Bearer ") = Some ""
  /\ Spec.response (Spec.validate (Some "") 0 Sample.db)
     = HTTPException 401 "Missing token"
  /\ get_current_retailer (Some "Bearer ") 0 (Some Sample.db)
     = HTTPException 401 "Invalid or expired token"
  /\ ~ Spec.validation_contract.
Proof.
  assert (H : get_current_retailer (Some "Bearer ") 0 (Some Sample.db)
              = HTTPException 401 "Invalid or expired token")
    by (vm_compute; reflexivity).
  repeat split; try exact H.
  intros Hc. specialize (Hc Sample.db (Some "Bearer ") 0%Q).
  rewrite H in Hc. discriminate Hc.
Qed.

(** ** What the caller sees of a failed validation *)

Lemma no_database (a : option string) (t : Q) :
  get_current_retailer a t None = HTTPException 500 "Database not available".
Proof. reflexivity. Qed.

Lemma validation_errors (d : Database) (a : option string) (t : Q)
    (c : Z) (m : string) :
  get_current_retailer a t (Some d) = HTTPException c m ->
  c = 401%Z
  /\ m ∈ ["Missing token"; "Invalid or expired token"; "Retailer not found"].
Proof.
  rewrite header_bearer.
  destruct (Spec.bearer a) as [tok|].
  2:{ intros [= <- <-]. split; [reflexivity | set_solver]. }
  rewrite bearer_header.
  destruct (Mongo.find_one _ (coll d "session")) as [sess|];
    [|intros [= <- <-]; split; [reflexivity | set_solver]].
  destruct (as_number _) as [e|]; [|discriminate].
  destruct (lt_num e t);
    [intros [= <- <-]; split; [reflexivity | set_solver]|].
  destruct (get sess "retailer_id") as [v|]; [|discriminate].
  destruct (object_id v) as [q|c' m'|x] eqn:E; [| |discriminate].
  - destruct (q ≫= _); [discriminate|].
    intros [= <- <-]. split; [reflexivity | set_solver].
  - exfalso. destruct v; simpl in E; try discriminate.
    destruct (Bson.make s); discriminate.
Qed.

(** C3, as the code has it. With a database, every failed validation that
    is answered with an HTTP error has status 401 and one of three
    messages; a token no session has and a token whose session is expired
    get the identical response, 401 "Invalid or expired token"; an absent
    header gets 401 "Missing token".  Without a database every validation
    fails with the 500 "Database not available". *)
Theorem auth_failures_share_status (d : Database) :
  (forall a t c m,
      get_current_retailer a t (Some d) = HTTPException c m ->
      c = 401%Z
      /\ m ∈ ["Missing token"; "Invalid or expired token"; "Retailer not found"])
  /\ (forall t, get_current_retailer None t (Some d) = HTTPException 401 "Missing token")
  /\ (forall tok t,
        Mongo.find_one [("token", VStr tok)] (coll d "session") = None ->
        get_current_retailer (Some ("Bearer " ++ tok)) t (Some d)
          = HTTPException 401 "Invalid or expired token")
  /\ (forall tok t sess,
        Mongo.find_one [("token", VStr tok)] (coll d "session") = Some sess ->
        Spec.expired sess t ->
        get_current_retailer (Some ("Bearer " ++ tok)) t (Some d)
          = HTTPException 401 "Invalid or expired token")
  /\ (forall a t,
        get_current_retailer a t None = HTTPException 500 "Database not available").
Proof.
  split; [|split; [|split; [|split]]].
  - apply validation_errors.
  - reflexivity.
  - intros tok t Hnone. now rewrite bearer_header, Hnone.
  - intros tok t sess Hsome Hexp.
    destruct (found_session d tok sess t Hsome) as (H & _). now apply H.
  - apply no_database.
Qed.

Lemma auth_failures_share_status_witness :
  get_current_retailer (Some ("Bearer " ++ "nope")) 0 (Some Sample.db)
    = HTTPException 401 "Invalid or expired token"
  /\ get_current_retailer (Some ("Bearer " ++ "tok-alice")) 700000 (Some Sample.db)
    = HTTPException 401 "Invalid or expired token"
  /\ get_current_retailer None 0 (Some Sample.db) = HTTPException 401 "Missing token"
  /\ (forall c m,
        get_current_retailer (Some "Bearer tok-alice") 1500 (Some Sample.orphaned)
          = HTTPException c m ->
        c = 401%Z
        /\ m ∈ ["Missing token"; "Invalid or expired token"; "Retailer not found"]).
Proof.
  destruct (auth_failures_share_status Sample.db) as (_ & H2 & H3 & H4 & _).
  split; [|split; [|split]].
  - apply H3. vm_compute. reflexivity.
  - apply (H4 "tok-alice" 700000%Q
             (default (Doc Sample.id_session ∅) (head (coll Sample.db "session")))).
    + vm_compute. reflexivity.
    + exists (1000 + 604800)%Q. split; [vm_compute; reflexivity|].
      unfold Qlt. simpl. lia.
  - apply H2.
  - apply (proj1 (auth_failures_share_status Sample.orphaned)).
Defined.

(** C3, as the specification states it, fails: the message tells the
    stages apart.  In one database, at one time, an absent header, an
    unknown token and (once the retailers are gone) a session without its
    retailer get three different messages. *)
Lemma auth_failure_messages_differ :
  get_current_retailer None 1500 (Some Sample.orphaned)
    = HTTPException 401 "Missing token"
  /\ get_current_retailer (Some "Bearer nope") 1500 (Some Sample.orphaned)
    = HTTPException 401 "Invalid or expired token"
  /\ get_current_retailer (Some "Bearer tok-alice") 1500 (Some Sample.orphaned)
    = HTTPException 401 "Retailer not found"
  /\ ~ Spec.indistinguishable.
Proof.
  assert (H1 : get_current_retailer None 1500 (Some Sample.orphaned)
               = HTTPException 401 "Missing token") by reflexivity.
  assert (H2 : get_current_retailer (Some "Bearer nope") 1500 (Some Sample.orphaned)
               = HTTPException 401 "Invalid or expired token")
    by (vm_compute; reflexivity).
  assert (H3 : get_current_retailer (Some "Bearer tok-alice") 1500 (Some Sample.orphaned)
               = HTTPException 401 "Retailer not found")
    by (vm_compute; reflexivity).
  repeat split; try assumption.
  intros Hc. destruct (Hc _ _ _ _ _ _ _ _ _ H1 H2) as [_ Hm]. discriminate Hm.
Qed.

(** ** The scenario of the specification *)

(** With the accounts of Alice and Bob stored: the registration of a
    stored e-mail address, a login, a refused login and, with the session
    of the sample database at time 2000, a listing. *)
Example scenario :
  let reg := {| RegisterIn.email := "a@x.com"; RegisterIn.password := Py.text "pw2";
                RegisterIn.company := None; RegisterIn.contact_name := None |} in
  let cred pw := {| LoginIn.email := "a@x.com"; LoginIn.password := Py.text pw |} in
  let e := {| now := 2000; token := "T"; oid := Sample.id_session |} in
  handle e (PostRegister reg) (Some Sample.seed)
    = (Raise "NotImplementedError", Some Sample.seed)
  /\ (handle e (PostLogin (cred "pw1")) (Some Sample.seed)).1 = Ok (TokenOut "T")
  /\ handle e (PostLogin (cred "wrong")) (Some Sample.seed)
      = (HTTPException 401 "Invalid credentials", Some Sample.seed)
  /\ handle e (GetOrders (Some "Bearer tok-alice")) (Some Sample.db)
      = (Ok (OrdersOut [with_str_id Sample.order]), Some Sample.db).
Proof. repeat split; vm_compute; reflexivity. Qed.

(** ** Test vectors *)

Example sha256_abc :
  Hashlib.sha256_hexdigest "abc" =
  "ba7816bf8f01cfea414140de5dae2223b00361a396177a9cb410ff61f20015ad".
Proof. vm_compute. reflexivity. Qed.

Example sha256_empty :
  Hashlib.sha256_hexdigest "" =
  "e3b0c44298fc1c149afbf4c8996fb92427ae41e4649b934ca495991b7852b855".
Proof. vm_compute. reflexivity. Qed.

Example oid_test :
  Bson.of_str "65A1b2c3d4e5f60718293a4b" = Some (Bson.Oid x65 xa1 xb2 xc3 xd4 xe5 xf6 x07 x18 x29 x3a x4b)
  /\ Bson.str (Bson.Oid x65 xa1 xb2 xc3 xd4 xe5 xf6 x07 x18 x29 x3a x4b) = "65a1b2c3d4e5f60718293a4b"
  /\ Bson.of_str "xyz" = None /\ Bson.of_str "65A1b2c3d4e5f60718293a4g" = None.
Proof. vm_compute. auto. Qed.

(** [ObjectId] on texts of 24 characters with white space, which
    [bytes.fromhex] skips between bytes. *)
Example oid_white_space :
  Bson.make "6500000000000000000001  "
    = Some (Bson.Short [x65; x00; x00; x00; x00; x00; x00; x00; x00; x00; x01])
  /\ Bson.make "                        " = Some (Bson.Short [])
  /\ Bson.make "6 5000000000000000000001" = None
  /\ Bson.make "65000000000000000000001 " = None
  /\ Bson.make "65000000000000000000000g" = None
  /\ Bson.make "650000000000000000000001" = Some (Bson.Full Sample.id_alice).
Proof. repeat split; vm_compute; reflexivity. Qed.

(** Float sums, with those of Python. *)
Example float_sums :
  Float.add (1 # 10) 604800 = (5195193300235059 # 8589934592)%Q
  /\ Float.add Sample.clock 604800 = (1783213378894253 # 1048576)%Q
  /\ Float.add Sample.clock_2038 604800 = 2148088448%Q
  /\ Float.add 0 604800 = 604800%Q.
Proof. repeat split; vm_compute; reflexivity. Qed.

(** Rounding, with [float(Fraction(..))] of Python: two ties, a third, a
    negative tenth, and two ties among the subnormal numbers. *)
Example float_rounding :
  Float.round (1 + (1 # 2 ^ 53)) = 1%Q
  /\ Float.round (1 + (3 # 2 ^ 53)) = (1 + (1 # 2 ^ 51))%Q
  /\ Float.round (1 # 3) = (6004799503160661 # 18014398509481984)%Q
  /\ Float.round (- (1 # 10)) = (- (3602879701896397 # 36028797018963968))%Q
  /\ Float.round (2 ^ (-1075)) = 0%Q
  /\ (Float.round (3 * 2 ^ (-1075)) == 2 ^ (-1073))%Q.
Proof. repeat split; vm_compute; reflexivity. Qed.


(** * Further properties of the service *)

(** ** Status codes *)

Lemma validation_error_401 (d : Database) (a : option string) (t : Q)
    (c : Z) (m : string) :
  get_current_retailer a t (Some d) = HTTPException c m -> c = 401%Z.
Proof.
  intros H. now destruct (validation_errors d a t c m H).
Qed.

Ltac status_leaf :=
  simpl; repeat split;
  [ rewrite !elem_of_cons; tauto
  | intros; try discriminate; simpl; eauto ].

Lemma depends_statuses (a : option string) (t : Q)
    (endpoint : document -> option Database -> result body * option Database)
    (d : Database) :
  (forall cur, status_of (endpoint cur (Some d)).1 = 200%Z
               \/ status_of (endpoint cur (Some d)).1 = 500%Z) ->
  let s := status_of (depends a t endpoint (Some d)).1 in
  s = 200%Z \/ s = 401%Z \/ s = 500%Z.
Proof.
  intros H. unfold depends.
  destruct (get_current_retailer a t (Some d)) as [cur|c m|x] eqn:E; simpl.
  - destruct (H cur); auto.
  - apply validation_error_401 in E. auto.
  - auto.
Qed.

Lemma register_None (data : RegisterIn.t) (oid : ObjectId) :
  exists e, register data oid None = (Raise e, None).
Proof.
  unfold register. simpl.
  destruct (hash_password _) as [h| |] eqn:E; simpl; eauto.
  unfold hash_password in E. destruct (Py.encode _); discriminate.
Qed.

(** X1. Every request (a request of the model carries a body that passed
    the validation of its model) is answered with status 200, 401 or 500;
    only a login or a request to an order endpoint is answered 401. *)
Theorem response_statuses (e : env) (r : request) (db : option Database) :
  let s := status_of (handle e r db).1 in
  s ∈ [200; 401; 500]%Z
  /\ (s = 401%Z -> (exists data, r = PostLogin data) \/ is_Some (credentials r)).
Proof.
  destruct db as [d|].
  2:{ destruct r; try solve [status_leaf].
      simpl handle. destruct (register_None data (oid e)) as [x ->]. status_leaf. }
  destruct r as [lead|data|data|a|a data|a order_id data|a order_id].
  - status_leaf.
  - simpl handle. rewrite register_raises. status_leaf.
  - simpl handle. unfold login.
    destruct (Mongo.find_one _ (coll d "retailer")) as [rec|];
      [destruct (hash_password_cases (LoginIn.password data)) as [[h ->] | ->];
       [destruct (differs_from_str _ _)|]|];
      status_leaf.
  - destruct (depends_statuses a (now e) list_orders d) as [H|[H|H]];
      [intros; left; reflexivity | ..]; simpl handle; rewrite H; status_leaf.
  - destruct (depends_statuses a (now e)
                (fun current => create_order data current (oid e)) d) as [H|[H|H]];
      [intros; left; reflexivity | ..]; simpl handle; rewrite H; status_leaf.
  - destruct (depends_statuses a (now e) (update_order order_id data) d) as [H|[H|H]];
      [intros; unfold update_order; destruct (Bson.make order_id); auto | ..];
      simpl handle; rewrite H; status_leaf.
  - destruct (depends_statuses a (now e) (delete_order order_id) d) as [H|[H|H]];
      [intros; unfold delete_order; destruct (Bson.make order_id); auto | ..];
      simpl handle; rewrite H; status_leaf.
Qed.

(** X2. Without a database every request (a request of the model carries
    a body that passed the validation of its model) is answered with status
    500, and there is still no database afterwards. *)
Theorem no_database_500 (e : env) (r : request) :
  status_of (handle e r None).1 = 500%Z /\ (handle e r None).2 = None.
Proof.
  destruct r; try (split; reflexivity).
  simpl handle. destruct (register_None data (oid e)) as [x ->].
  split; reflexivity.
Qed.

(** ** The authentication gate *)

(** X3. A request to an order endpoint whose header fails validation is
    answered with the failure of the validation, a 401 or a 500, and leaves
    the database as it was: no order is read, created, changed or removed
    without a valid session. *)
Theorem order_endpoints_need_session (e : env) (r : request)
    (a : option string) (d : Database) :
  credentials r = Some a ->
  (forall cur, get_current_retailer a (now e) (Some d) <> Ok cur) ->
  (handle e r (Some d)).2 = Some d
  /\ (status_of (handle e r (Some d)).1 = 401%Z
      \/ status_of (handle e r (Some d)).1 = 500%Z)
  /\ (forall c m, get_current_retailer a (now e) (Some d) = HTTPException c m ->
        (handle e r (Some d)).1 = HTTPException c m).
Proof.
  intros Hc Hfail.
  assert (H : forall endpoint,
             (depends a (now e) endpoint (Some d)).2 = Some d
             /\ (status_of (depends a (now e) endpoint (Some d)).1 = 401%Z
                 \/ status_of (depends a (now e) endpoint (Some d)).1 = 500%Z)
             /\ (forall c m,
                   get_current_retailer a (now e) (Some d) = HTTPException c m ->
                   (depends a (now e) endpoint (Some d)).1 = HTTPException c m)).
  { intros endpoint. unfold depends.
    destruct (get_current_retailer a (now e) (Some d)) as [cur|c m|x] eqn:E.
    - now destruct (Hfail cur).
    - apply validation_error_401 in E as ->. simpl. repeat split; auto.
      now intros c' m' [= <- <-].
    - simpl. repeat split; auto. discriminate. }
  destruct r; simpl in Hc; try discriminate; injection Hc as ->; apply H.
Qed.

Lemma order_endpoints_need_session_witness :
  let e := {| now := 1500; token := ""; oid := Sample.id_order |} in
  let r := DeleteOrder (Some "Bearer stolen") (Bson.str Sample.id_order) in
  (handle e r (Some Sample.db)).2 = Some Sample.db
  /\ (status_of (handle e r (Some Sample.db)).1 = 401%Z
      \/ status_of (handle e r (Some Sample.db)).1 = 500%Z)
  /\ (forall c m,
        get_current_retailer (Some "Bearer stolen") 1500 (Some Sample.db)
          = HTTPException c m ->
        (handle e r (Some Sample.db)).1 = HTTPException c m).
Proof.
  intros e r.
  apply (order_endpoints_need_session e r (Some "Bearer stolen") Sample.db).
  - reflexivity.
  - intros cur. vm_compute. discriminate.
Defined.


(** ** Who can change whose orders *)

Lemma mine_app (A : document) (c c' : Collection) :
  mine A (c ++ c') = (mine A c ++ mine A c')%list.
Proof. apply List.filter_app. Qed.

Lemma update_one_mine (A cur : document) (q : Mongo.filter)
    (upd : gmap string value) (c : Collection) :
  _id cur <> _id A ->
  (forall x, Mongo.matches q x = true -> owned_by cur x) ->
  upd !! "retailer_id" = None ->
  mine A (Mongo.update_one q upd c) = mine A c.
Proof.
  intros Hne Hq Hu. unfold mine. induction c as [|x c IH]; simpl; [reflexivity|].
  destruct (Mongo.matches q x) eqn:E; simpl; [|now rewrite IH].
  specialize (Hq x E).
  rewrite (bool_decide_eq_false_2 (owned_by A x)).
  - rewrite (bool_decide_eq_false_2 (owned_by A _)); [reflexivity|].
    unfold owned_by in *. rewrite set_keeps_owner by assumption.
    intros HA. apply Hne. apply str_inj. congruence.
  - intros HA. apply Hne. eapply owned_by_inj; eassumption.
Qed.

Lemma delete_one_mine (A cur : document) (q : Mongo.filter) (c : Collection) :
  _id cur <> _id A ->
  (forall x, Mongo.matches q x = true -> owned_by cur x) ->
  mine A (Mongo.delete_one q c) = mine A c.
Proof.
  intros Hne Hq. unfold mine. induction c as [|x c IH]; simpl; [reflexivity|].
  destruct (Mongo.matches q x) eqn:E; simpl; [|now rewrite IH].
  rewrite (bool_decide_eq_false_2 (owned_by A x)); [reflexivity|].
  intros HA. apply Hne. eapply owned_by_inj; [exact (Hq x E) | exact HA].
Qed.

Lemma endpoint_mine (e : env) (r : request) (a : option string) (d d' : Database)
    (res : result body) (A cur : document) :
  credentials r = Some a ->
  _id cur <> _id A ->
  (match r with
   | GetOrders _ => list_orders cur (Some d)
   | PostOrder _ data => create_order data cur (oid e) (Some d)
   | PutOrder _ order_id data => update_order order_id data cur (Some d)
   | DeleteOrder _ order_id => delete_order order_id cur (Some d)
   | _ => (res, Some d)
   end) = (res, Some d') ->
  mine A (coll d' "order") = mine A (coll d "order").
Proof.
  intros Hc Hne.
  destruct r as [| | | |a' data|a' order_id data|a' order_id]; try discriminate Hc.
  - now intros [= _ <-].
  - intros [= _ <-]. rewrite coll_insert, decide_True by reflexivity.
    unfold Mongo.insert_one. rewrite mine_app. simpl.
    rewrite (bool_decide_eq_false_2 (owned_by A _)); [apply app_nil_r|].
    intros HA. apply Hne.
    match type of HA with
    | owned_by _ ?x =>
        apply (owned_by_inj cur A x); [|exact HA];
        unfold owned_by; rewrite get_field by discriminate;
        apply lookup_insert_eq
    end.
  - unfold update_order.
    destruct (Bson.make order_id) as [o|]; intros [= _ <-]; [|reflexivity].
    rewrite coll_alter, decide_True by reflexivity.
    apply (update_one_mine A cur);
      [assumption | apply order_filter_owned | apply model_dump_retailer_id].
  - unfold delete_order.
    destruct (Bson.make order_id) as [o|]; intros [= _ <-]; [|reflexivity].
    rewrite coll_alter, decide_True by reflexivity.
    apply (delete_one_mine A cur); [assumption | apply order_filter_owned].
Qed.

(** X4. Access control at the request level: when a request changes the
    orders of a retailer [A] (the list of the stored orders that carry
    [A]'s identifier), the request went to an order endpoint and its header
    was validated as [A].  No other request, whatever its order identifier
    or body, changes them. *)
Theorem only_the_owner_changes_orders (e : env) (r : request) (d d' : Database)
    (res : result body) (A : document) :
  handle e r (Some d) = (res, Some d') ->
  mine A (coll d' "order") <> mine A (coll d "order") ->
  exists a cur,
    credentials r = Some a
    /\ get_current_retailer a (now e) (Some d) = Ok cur
    /\ _id cur = _id A.
Proof.
  intros Hh Hchg.
  destruct (credentials r) as [a|] eqn:Hc.
  - exists a. destruct (get_current_retailer a (now e) (Some d)) as [cur|c m|x] eqn:E.
    + exists cur. repeat split. destruct (decide (_id cur = _id A)) as [|Hne]; [assumption|].
      exfalso. apply Hchg. apply (endpoint_mine e r a d d' res A cur Hc Hne).
      destruct r; try discriminate Hc; injection Hc as ->;
        simpl in Hh; unfold depends in Hh; rewrite E in Hh; exact Hh.
    + exfalso. apply Hchg.
      destruct r; try discriminate Hc; injection Hc as ->;
        simpl in Hh; unfold depends in Hh; rewrite E in Hh;
        injection Hh as _ <-; reflexivity.
    + exfalso. apply Hchg.
      destruct r; try discriminate Hc; injection Hc as ->;
        simpl in Hh; unfold depends in Hh; rewrite E in Hh;
        injection Hh as _ <-; reflexivity.
  - exfalso. apply Hchg.
    destruct r as [lead|data|data| | | |]; try discriminate Hc; simpl in Hh.
    + injection Hh as _ <-. now rewrite coll_insert, decide_False.
    + rewrite register_raises in Hh. injection Hh as _ <-. reflexivity.
    + unfold login in Hh.
      destruct (Mongo.find_one _ (coll d "retailer")) as [rec|];
        [destruct (hash_password_cases (LoginIn.password data)) as [[h Eh] | Eh];
         rewrite Eh in Hh; [destruct (differs_from_str _ _)|]|];
        injection Hh as _ <-; try reflexivity.
      now rewrite coll_insert, decide_False.
Qed.

Lemma only_the_owner_changes_orders_witness :
  exists a cur,
    credentials (DeleteOrder (Some "Bearer tok-alice") (Bson.str Sample.id_order))
      = Some a
    /\ get_current_retailer a 1500 (Some Sample.db) = Ok cur
    /\ _id cur = _id Sample.alice.
Proof.
  apply (only_the_owner_changes_orders
           {| now := 1500; token := ""; oid := Sample.id_order |}
           (DeleteOrder (Some "Bearer tok-alice") (Bson.str Sample.id_order))
           Sample.db
           (alter (Mongo.delete_one (order_query Sample.alice Sample.id_order))
                  "order" Sample.db)
           (Ok (StatusOut "ok" None)) Sample.alice).
  - vm_compute. reflexivity.
  - vm_compute. discriminate.
Defined.

(** ** What no request removes *)

Lemma effect_leads (d d' : Database) :
  effect d d' -> coll d "lead" `prefix_of` coll d' "lead".
Proof.
  intros []; rewrite ?coll_insert, ?coll_alter by assumption; simpl;
    try reflexivity.
  now apply prefix_app_r.
Qed.

Lemma effects_leads (d d' : Database) :
  rtc effect d d' -> coll d "lead" `prefix_of` coll d' "lead".
Proof.
  induction 1 as [|d d1 d' H _ IH]; [reflexivity|].
  etrans; [exact (effect_leads _ _ H) | exact IH].
Qed.

(** X5. Retailers, sessions and leads are append-only: after any sequence
    of requests the stored retailers, sessions and leads begin with the
    ones stored before, unchanged and in the same order.  No request
    removes or rewrites an account, a session (there is no logout) or a
    lead. *)
Theorem accounts_sessions_leads_append_only (trace : list (env * request))
    (d : Database) :
  exists d',
    run trace (Some d) = Some d'
    /\ coll d "retailer" `prefix_of` coll d' "retailer"
    /\ coll d "session" `prefix_of` coll d' "session"
    /\ coll d "lead" `prefix_of` coll d' "lead".
Proof.
  destruct (run_effects trace d) as (d' & Hrun & Hrtc).
  exists d'. split; [assumption|].
  split; [now apply effects_retailers|].
  split; [now apply effects_sessions | now apply effects_leads].
Qed.

Lemma validation_prefix (d d' : Database) (a : option string) (t : Q)
    (cur : document) :
  coll d "session" `prefix_of` coll d' "session" ->
  coll d "retailer" `prefix_of` coll d' "retailer" ->
  get_current_retailer a t (Some d) = Ok cur ->
  get_current_retailer a t (Some d') = Ok cur.
Proof.
  intros Hs Hr. rewrite !header_bearer.
  destruct (Spec.bearer a) as [tok|]; [|discriminate].
  rewrite !bearer_header.
  destruct (Mongo.find_one [("token", VStr tok)] (coll d "session"))
    as [sess|] eqn:E1; [|discriminate].
  rewrite (find_one_prefix _ _ _ _ Hs E1).
  destruct (as_number _); [|discriminate].
  destruct (lt_num _ _); [discriminate|].
  destruct (get sess "retailer_id") as [v|]; [|discriminate].
  destruct (object_id v) as [[v'|]| |]; try discriminate. simpl.
  destruct (Mongo.find_one [("_id", v')] (coll d "retailer")) as [x|] eqn:E2;
    [|discriminate].
  now rewrite (find_one_prefix _ _ _ _ Hr E2).
Qed.

(** X6. Nothing revokes a session: a header that validates to a retailer
    at some time validates to the same retailer, at that time, after any
    sequence of requests (further logins, registrations, order changes). *)
Theorem valid_session_stays_valid (trace : list (env * request)) (d : Database)
    (a : option string) (t : Q) (cur : document) :
  get_current_retailer a t (Some d) = Ok cur ->
  exists d',
    run trace (Some d) = Some d'
    /\ get_current_retailer a t (Some d') = Ok cur.
Proof.
  intros H. destruct (run_effects trace d) as (d' & Hrun & Hrtc).
  exists d'. split; [assumption|].
  eapply validation_prefix; [| |exact H].
  - now apply effects_sessions.
  - now apply effects_retailers.
Qed.

Lemma valid_session_stays_valid_witness :
  exists d',
    run Sample.later (Some Sample.db1) = Some d'
    /\ get_current_retailer (Some "Bearer tok-alice") 1500 (Some d') = Ok Sample.alice.
Proof.
  apply (valid_session_stays_valid Sample.later Sample.db1
           (Some "Bearer tok-alice") 1500 Sample.alice).
  vm_compute. reflexivity.
Defined.


(** ** Creating, listing, updating and deleting orders *)

Lemma find_app (q : Mongo.filter) (c c' : Collection) :
  Mongo.find q (c ++ c') = (Mongo.find q c ++ Mongo.find q c')%list.
Proof. apply List.filter_app. Qed.

Lemma find_single (q : Mongo.filter) (x : document) :
  Mongo.find q [x] = if Mongo.matches q x then [x] else [].
Proof. reflexivity. Qed.

Lemma new_order_owned (A : document) (data : OrderIn.t) (oid : ObjectId) :
  owned_by A (Doc oid (<["retailer_id" := VStr (Bson.str (_id A))]>
                         (OrderIn.model_dump data))).
Proof.
  unfold owned_by. rewrite get_field by discriminate. apply lookup_insert_eq.
Qed.

(** X7. Create, then list: after [create_order] the caller's listing is the
    listing before followed by the new order, which carries the text of the
    generated identifier as [_id], the caller's identifier as [retailer_id]
    and the fields of the request as they were sent (the items in their
    order); the listing of every other retailer is as before. *)
Theorem created_order_is_listed (d : Database) (A : document) (data : OrderIn.t)
    (oid : ObjectId) :
  let entry :=
    <["_id" := VStr (Bson.str oid)]>
      (<["retailer_id" := VStr (Bson.str (_id A))]> (OrderIn.model_dump data)) in
  exists d' prev,
    (create_order data A oid (Some d)).2 = Some d'
    /\ list_orders A (Some d) = (Ok (OrdersOut prev), Some d)
    /\ list_orders A (Some d') = (Ok (OrdersOut (prev ++ [entry])), Some d')
    /\ (forall k, k <> "_id" -> k <> "retailer_id" ->
          entry !! k = OrderIn.model_dump data !! k)
    /\ (forall B, _id B <> _id A ->
          (list_orders B (Some d')).1 = (list_orders B (Some d)).1).
Proof.
  intros entry.
  set (new := Doc oid (<["retailer_id" := VStr (Bson.str (_id A))]>
                         (OrderIn.model_dump data))).
  exists (<["order" := (coll d "order" ++ [new])%list]> d).
  eexists. split; [reflexivity|]. split; [reflexivity|].
  assert (Hnew : owned_by A new) by apply new_order_owned.
  split; [|split].
  - unfold list_orders. rewrite coll_insert, decide_True by reflexivity.
    rewrite find_app, find_single.
    rewrite (proj2 (matches_one _ _ new) Hnew). now rewrite map_app.
  - intros k H1 H2. unfold entry.
    now rewrite !lookup_insert_ne by congruence.
  - intros B HB. unfold list_orders. rewrite coll_insert, decide_True by reflexivity.
    rewrite find_app, find_single.
    destruct (Mongo.matches _ new) eqn:E; [|now rewrite app_nil_r].
    apply matches_one in E. destruct HB. eapply owned_by_inj; eassumption.
Qed.

Lemma order_query_kept (B : document) (v : value) (upd : gmap string value)
    (x : document) :
  upd !! "retailer_id" = None ->
  Mongo.matches [("_id", v); ("retailer_id", VStr (Bson.str (_id B)))]
    (Doc (_id x) (upd ∪ fields x))
  = Mongo.matches [("_id", v); ("retailer_id", VStr (Bson.str (_id B)))] x.
Proof.
  intros Hu. unfold Mongo.matches. simpl.
  now rewrite set_keeps_owner.
Qed.

Lemma update_one_twice (B : document) (v : value) (upd : gmap string value)
    (c : Collection) :
  upd !! "retailer_id" = None ->
  let q := [("_id", v); ("retailer_id", VStr (Bson.str (_id B)))] in
  Mongo.update_one q upd (Mongo.update_one q upd c) = Mongo.update_one q upd c.
Proof.
  intros Hu q. induction c as [|x c IH]; cbn [Mongo.update_one]; [reflexivity|].
  destruct (Mongo.matches q x) eqn:E; cbn [Mongo.update_one].
  - unfold q at 1. rewrite order_query_kept by assumption. fold q.
    rewrite E. cbn [_id fields].
    now rewrite (assoc_L (∪)), (idemp_L (∪)).
  - now rewrite E, IH.
Qed.

(** X8. [PUT] is idempotent: sending the same update a second time gives
    the same answer and leaves the database as the first one left it. *)
Theorem update_order_idempotent (d : Database) (B : document)
    (order_id : string) (data : OrderIn.t) :
  exists res d1,
    update_order order_id data B (Some d) = (res, Some d1)
    /\ update_order order_id data B (Some d1) = (res, Some d1).
Proof.
  unfold update_order. destruct (Bson.make order_id) as [oid|]; [|eauto].
  do 2 eexists. split; [reflexivity|]. do 2 f_equal.
  rewrite alter_alter_eq. apply alter_ext. intros c _. simpl.
  apply (update_one_twice B (id_value oid)), model_dump_retailer_id.
Qed.

Lemma update_one_at (q : Mongo.filter) (upd : gmap string value)
    (l1 l2 : Collection) (o : document) :
  (forall x, x ∈ l1 -> Mongo.matches q x = false) ->
  Mongo.matches q o = true ->
  Mongo.update_one q upd (l1 ++ o :: l2)
  = (l1 ++ Doc (_id o) (upd ∪ fields o) :: l2)%list.
Proof.
  intros H1 Ho. induction l1 as [|x l1 IH]; simpl.
  - now rewrite Ho.
  - rewrite (H1 x) by left. rewrite IH; [reflexivity|].
    intros y Hy. apply H1. now right.
Qed.

Lemma delete_one_at (q : Mongo.filter) (l1 l2 : Collection) (o : document) :
  (forall x, x ∈ l1 -> Mongo.matches q x = false) ->
  Mongo.matches q o = true ->
  Mongo.delete_one q (l1 ++ o :: l2) = (l1 ++ l2)%list.
Proof.
  intros H1 Ho. induction l1 as [|x l1 IH]; simpl.
  - now rewrite Ho.
  - rewrite (H1 x) by left. rewrite IH; [reflexivity|].
    intros y Hy. apply H1. now right.
Qed.

Lemma order_query_false (B : document) (oid : ObjectId) (l : Collection) :
  (forall x, x ∈ l -> _id x = oid -> ~ owned_by B x) ->
  forall x, x ∈ l -> Mongo.matches (order_query B oid) x = false.
Proof.
  intros H x Hx. apply not_true_is_false. unfold order_query.
  rewrite matches_two. intros [Hid Hown]. rewrite get_id in Hid.
  apply (H x Hx); [congruence | exact Hown].
Qed.

Lemma order_query_true (B : document) (o : document) :
  owned_by B o -> Mongo.matches (order_query B (_id o)) o = true.
Proof. intros H. unfold order_query. apply matches_two. now split. Qed.

Lemma coll_Some (d : Database) (name : string) (x : document) (l : Collection) :
  coll d name = x :: l -> d !! name = Some (x :: l).
Proof. unfold coll. destruct (d !! name); simpl; congruence. Qed.

Lemma model_dump_no_id (data : OrderIn.t) : OrderIn.model_dump data !! "_id" = None.
Proof.
  apply eq_None_not_Some. rewrite model_dump_keys.
  rewrite !elem_of_cons, elem_of_nil. intuition discriminate.
Qed.

(** X9. The effect of an update by the owner: when [order_id] is the text
    of the identifier of an order [o] of the caller (the first such order),
    [update_order] answers "ok" and replaces [o], in place, by a document
    with the same identifier whose fields are those of the request body
    where the body has them (the six [OrderIn] fields) and those of [o]
    everywhere else; the other orders and the other collections are as
    before. *)
Theorem update_order_effect (d : Database) (B o : document) (order_id : string)
    (data : OrderIn.t) (l1 l2 : Collection) :
  Bson.of_str order_id = Some (_id o) ->
  coll d "order" = (l1 ++ o :: l2)%list ->
  owned_by B o ->
  (forall x, x ∈ l1 -> _id x = _id o -> ~ owned_by B x) ->
  exists d' o',
    update_order order_id data B (Some d) = (Ok (StatusOut "ok" None), Some d')
    /\ coll d' "order" = (l1 ++ o' :: l2)%list
    /\ _id o' = _id o
    /\ (forall k, get o' k = match OrderIn.model_dump data !! k with
                             | Some v => Some v
                             | None => get o k
                             end)
    /\ (forall name, name <> "order" -> coll d' name = coll d name).
Proof.
  intros Hid Hc Hown Hl1. unfold update_order.
  rewrite (of_str_make _ _ Hid). cbn [id_value].
  do 2 eexists. split; [reflexivity|].
  rewrite coll_alter, decide_True by reflexivity.
  fold (order_query B (_id o)). rewrite Hc.
  rewrite update_one_at;
    [|now apply order_query_false | now apply order_query_true].
  split; [reflexivity|]. split; [reflexivity|]. split.
  - intros k. unfold get. simpl.
    destruct (String.eqb_spec k "_id") as [->|Hk].
    + now rewrite model_dump_no_id.
    + destruct (OrderIn.model_dump data !! k) as [v|] eqn:E.
      * now apply lookup_union_Some_l.
      * now apply lookup_union_r.
  - intros name Hn. rewrite coll_alter by reflexivity.
    now rewrite decide_False by congruence.
Qed.

Lemma update_order_effect_witness :
  exists d' o',
    update_order (Bson.str Sample.id_order) Sample2.order_in2 Sample.alice
      (Some Sample.db) = (Ok (StatusOut "ok" None), Some d')
    /\ coll d' "order" = ([] ++ o' :: [])%list
    /\ _id o' = _id Sample.order
    /\ (forall k, get o' k = match OrderIn.model_dump Sample2.order_in2 !! k with
                             | Some v => Some v
                             | None => get Sample.order k
                             end)
    /\ (forall name, name <> "order" -> coll d' name = coll Sample.db name).
Proof.
  apply (update_order_effect Sample.db Sample.alice Sample.order
           (Bson.str Sample.id_order) Sample2.order_in2 [] []).
  - apply of_str_str.
  - vm_compute. reflexivity.
  - vm_compute. reflexivity.
  - intros x Hx. inversion Hx.
Defined.

(** X10. The effect of a delete by the owner: under the same conditions
    [delete_order] answers "ok" and removes exactly that order, the others
    keeping their order; the other collections are as before; and when no
    later order of the caller has the identifier, a second delete changes
    nothing. *)
Theorem delete_order_effect (d : Database) (B o : document) (order_id : string)
    (l1 l2 : Collection) :
  Bson.of_str order_id = Some (_id o) ->
  coll d "order" = (l1 ++ o :: l2)%list ->
  owned_by B o ->
  (forall x, x ∈ l1 -> _id x = _id o -> ~ owned_by B x) ->
  exists d',
    delete_order order_id B (Some d) = (Ok (StatusOut "ok" None), Some d')
    /\ coll d' "order" = (l1 ++ l2)%list
    /\ (forall name, name <> "order" -> coll d' name = coll d name)
    /\ ((forall x, x ∈ l2 -> _id x = _id o -> ~ owned_by B x) ->
          delete_order order_id B (Some d') = (Ok (StatusOut "ok" None), Some d')).
Proof.
  intros Hid Hc Hown Hl1. unfold delete_order.
  rewrite (of_str_make _ _ Hid). cbn [id_value].
  eexists. split; [reflexivity|].
  fold (order_query B (_id o)).
  assert (E : coll (alter (Mongo.delete_one (order_query B (_id o))) "order" d) "order"
              = (l1 ++ l2)%list).
  { rewrite coll_alter, decide_True by reflexivity. rewrite Hc.
    apply delete_one_at; [now apply order_query_false | now apply order_query_true]. }
  split; [exact E|]. split.
  - intros name Hn. rewrite coll_alter by reflexivity.
    now rewrite decide_False by congruence.
  - intros Hl2. do 2 f_equal. apply alter_same. rewrite E.
    apply delete_one_no_match. apply order_query_false.
    intros x Hx. apply elem_of_app in Hx as [Hx|Hx]; auto.
Qed.

Lemma delete_order_effect_witness :
  exists d',
    delete_order (Bson.str Sample.id_order) Sample.alice (Some Sample.db)
      = (Ok (StatusOut "ok" None), Some d')
    /\ coll d' "order" = ([] ++ [])%list
    /\ (forall name, name <> "order" -> coll d' name = coll Sample.db name)
    /\ ((forall x, x ∈ @nil document -> _id x = _id Sample.order ->
                   ~ owned_by Sample.alice x) ->
          delete_order (Bson.str Sample.id_order) Sample.alice (Some d')
            = (Ok (StatusOut "ok" None), Some d')).
Proof.
  apply (delete_order_effect Sample.db Sample.alice Sample.order
           (Bson.str Sample.id_order) [] []).
  - apply of_str_str.
  - vm_compute. reflexivity.
  - vm_compute. reflexivity.
  - intros x Hx. inversion Hx.
Defined.

(** X11. Create, then delete: when no stored order of the caller has the
    generated identifier, deleting the order under the identifier that
    [create_order] returned brings every collection back to what it was. *)
Theorem create_then_delete (d : Database) (A : document) (data : OrderIn.t)
    (oid : ObjectId) :
  (forall x, x ∈ coll d "order" -> _id x = oid -> ~ owned_by A x) ->
  exists order_id d1 d2,
    create_order data A oid (Some d) = (Ok (StatusOut "ok" (Some order_id)), Some d1)
    /\ delete_order order_id A (Some d1) = (Ok (StatusOut "ok" None), Some d2)
    /\ forall name, coll d2 name = coll d name.
Proof.
  intros Hfresh.
  set (new := Doc oid (<["retailer_id" := VStr (Bson.str (_id A))]>
                         (OrderIn.model_dump data))).
  exists (Bson.str oid), (<["order" := (coll d "order" ++ [new])%list]> d).
  eexists. split; [reflexivity|].
  unfold delete_order. rewrite make_str. cbn [id_value]. split; [reflexivity|].
  intros name. fold (order_query A oid).
  rewrite coll_alter by reflexivity. rewrite !coll_insert.
  destruct (decide ("order" = name)) as [<-|]; [|reflexivity].
  rewrite decide_True by reflexivity.
  rewrite (delete_one_at _ (coll d "order") [] new).
  - apply app_nil_r.
  - now apply order_query_false.
  - apply (order_query_true A new), new_order_owned.
Qed.

Lemma create_then_delete_witness :
  exists order_id d1 d2,
    create_order Sample2.order_in2 Sample.bob Sample2.id_new (Some Sample.db)
      = (Ok (StatusOut "ok" (Some order_id)), Some d1)
    /\ delete_order order_id Sample.bob (Some d1) = (Ok (StatusOut "ok" None), Some d2)
    /\ forall name, coll d2 name = coll Sample.db name.
Proof.
  apply (create_then_delete Sample.db Sample.bob Sample2.order_in2 Sample2.id_new).
  apply (proj1 (Forall_forall
           (fun x => _id x = Sample2.id_new -> ~ owned_by Sample.bob x) _)).
  vm_compute. repeat constructor. intros H. discriminate H.
Defined.

(** ** From login to an authenticated request *)

Lemma find_one_last (q : Mongo.filter) (c : Collection) (x : document) :
  (forall y, y ∈ c -> Mongo.matches q y = false) ->
  Mongo.matches q x = true ->
  Mongo.find_one q (c ++ [x]) = Some x.
Proof.
  intros Hc Hx. rewrite find_one_app.
  rewrite (proj2 (find_one_None q c) Hc). simpl. now rewrite Hx.
Qed.

Lemma no_match_one (k : string) (v : value) (c : Collection) :
  (forall y, y ∈ c -> get y k <> Some v) ->
  forall y, y ∈ c -> Mongo.matches [(k, v)] y = false.
Proof.
  intros H y Hy. apply not_true_is_false. rewrite matches_one. now apply H.
Qed.

(** X12. Log in, call: when the first retailer stored under the e-mail
    address has the hash of the password (the token being new, and no
    other stored retailer having that retailer's identifier), [login]
    returns the token and changes nothing but the sessions; the token then
    validates to exactly that retailer at every time up to the stored
    [expires_at], the float sum of the login time and 604800, and is
    refused with the 401 "Invalid or expired token" after it. *)
Theorem login_then_validate (d : Database) (data : LoginIn.t) (rec : document)
    (h : string) (sid : ObjectId) (t : Q) (tok : string) :
  Mongo.find_one [("email", VStr (LoginIn.email data))] (coll d "retailer") = Some rec ->
  hash_password (LoginIn.password data) = Ok h ->
  get rec "password_hash" = Some (VStr h) ->
  (forall r, r ∈ coll d "retailer" -> _id r = _id rec -> r = rec) ->
  (forall s, s ∈ coll d "session" -> get s "token" <> Some (VStr tok)) ->
  exists d2,
    login data t tok sid (Some d) = (Ok (TokenOut tok), Some d2)
    /\ (forall name, name <> "session" -> coll d2 name = coll d name)
    /\ (forall t', (t' <= Float.add t 604800)%Q ->
          get_current_retailer (Some ("Bearer " ++ tok)) t' (Some d2) = Ok rec)
    /\ (forall t', (Float.add t 604800 < t')%Q ->
          get_current_retailer (Some ("Bearer " ++ tok)) t' (Some d2)
            = HTTPException 401 "Invalid or expired token").
Proof.
  intros Hfind Hh Hrec Huniq Htok.
  set (sess := Doc sid (Session.model_dump
     {| Session.token := tok; Session.retailer_id := Bson.str (_id rec);
        Session.expires_at := Float.add t 604800 |})).
  set (d2 := <["session" := (coll d "session" ++ [sess])%list]> d).
  assert (Hsess : Mongo.find_one [("token", VStr tok)] (coll d2 "session")
                  = Some sess).
  { unfold d2. rewrite coll_insert, decide_True by reflexivity.
    apply find_one_last; [now apply no_match_one | now apply matches_one]. }
  assert (Hret : Mongo.find_one [("_id", VOid (_id rec))] (coll d2 "retailer")
                 = Some rec).
  { unfold d2. rewrite coll_insert, decide_False by discriminate.
    apply find_one_Some in Hfind as [Hin _].
    destruct (find_one_is_Some [("_id", VOid (_id rec))] (coll d "retailer") rec Hin)
      as [r Hr]; [now apply matches_one|].
    rewrite Hr. f_equal.
    apply find_one_Some in Hr as [Hr Hm]. apply matches_one in Hm.
    rewrite get_id in Hm. apply Huniq; [assumption | congruence]. }
  exists d2. split; [|split; [|split]].
  - unfold login. rewrite Hfind, Hh.
    rewrite (proj2 (differs_from_str_false (get rec "password_hash") h) Hrec).
    reflexivity.
  - intros name Hn. unfold d2. rewrite coll_insert.
    now rewrite decide_False by congruence.
  - intros t' Ht'. rewrite bearer_header, Hsess.
    change (as_number (default (VInt 0) (get sess "expires_at")))
      with (Some (Float.add t 604800)).
    cbv beta iota. rewrite (proj2 (lt_num_false _ _) Ht').
    change (get sess "retailer_id") with (Some (VStr (Bson.str (_id rec)))).
    cbv beta iota. unfold object_id. rewrite make_str.
    cbn [id_value mbind option_bind]. now rewrite Hret.
  - intros t' Ht'. rewrite bearer_header, Hsess.
    change (as_number (default (VInt 0) (get sess "expires_at")))
      with (Some (Float.add t 604800)).
    cbv beta iota. now rewrite (proj2 (lt_num_true _ _) Ht').
Qed.

Lemma login_then_validate_witness :
  exists d2,
    login {| LoginIn.email := "b@x.com"; LoginIn.password := Py.text "pw2" |}
      Sample.clock "tok-bob" Sample2.id_new (Some Sample.db)
      = (Ok (TokenOut "tok-bob"), Some d2)
    /\ (forall name, name <> "session" -> coll d2 name = coll Sample.db name)
    /\ (forall t', (t' <= Float.add Sample.clock 604800)%Q ->
          get_current_retailer (Some ("Bearer " ++ "tok-bob")) t' (Some d2)
            = Ok Sample.bob)
    /\ (forall t', (Float.add Sample.clock 604800 < t')%Q ->
          get_current_retailer (Some ("Bearer " ++ "tok-bob")) t' (Some d2)
            = HTTPException 401 "Invalid or expired token").
Proof.
  apply (login_then_validate Sample.db
           {| LoginIn.email := "b@x.com"; LoginIn.password := Py.text "pw2" |}
           Sample.bob (Sample.stored_hash (Py.text "pw2"))).
  - vm_compute. reflexivity.
  - vm_compute. reflexivity.
  - vm_compute. reflexivity.
  - apply (proj1 (Forall_forall
             (fun r => _id r = _id Sample.bob -> r = Sample.bob) _)).
    vm_compute. repeat constructor; intros H; try discriminate H; reflexivity.
  - apply (proj1 (Forall_forall
             (fun s => get s "token" <> Some (VStr "tok-bob")) _)).
    vm_compute. repeat constructor; discriminate.
Defined.


(** ** The scheme of the [Authorization] header *)

Lemma bearer_of_scheme (p tok : string) :
  Py.lower p = "bearer " -> Spec.bearer (Some (p ++ tok)) = Some tok.
Proof.
  intros H.
  destruct p as [|c0 [|c1 [|c2 [|c3 [|c4 [|c5 [|c6 [|c7 p]]]]]]]];
    try discriminate H.
  injection H as H0 H1 H2 H3 H4 H5 H6.
  unfold Spec.bearer. destruct tok as [|c tok]; simpl;
    rewrite H0, H1, H2, H3, H4, H5, H6; simpl; now rewrite ?substring_all.
Qed.

Lemma short_header (a : string) :
  String.length a < 7 -> Spec.bearer (Some a) = None.
Proof.
  intros H.
  destruct a as [|c0 [|c1 [|c2 [|c3 [|c4 [|c5 [|c6 a]]]]]]]; simpl in H;
    try lia; unfold Spec.bearer; simpl;
    repeat match goal with
           | |- context [Ascii.eqb ?x ?y] => destruct (Ascii.eqb x y)
           end; reflexivity.
Qed.

(** X13. The scheme of the header is matched without regard to case and the
    token is taken as it stands: a header made of any spelling of
    ["bearer "] and a token is treated as ["Bearer "] with that token,
    whatever the token contains; a header of fewer than seven characters is
    answered "Missing token". *)
Theorem authorization_scheme (p tok a : string) (t : Q) (d : Database) :
  (Py.lower p = "bearer " ->
     get_current_retailer (Some (p ++ tok)) t (Some d)
     = get_current_retailer (Some ("Bearer " ++ tok)) t (Some d))
  /\ (String.length a < 7 ->
        get_current_retailer (Some a) t (Some d)
        = HTTPException 401 "Missing token").
Proof.
  split.
  - intros H. rewrite (header_bearer d (Some (p ++ tok))).
    now rewrite bearer_of_scheme.
  - intros H. rewrite header_bearer. now rewrite short_header.
Qed.

Lemma authorization_scheme_witness :
  get_current_retailer (Some ("bEaReR " ++ "tok-alice")) 1500 (Some Sample.db)
  = get_current_retailer (Some ("Bearer " ++ "tok-alice")) 1500 (Some Sample.db)
  /\ get_current_retailer (Some "Bearer") 1500 (Some Sample.db)
     = HTTPException 401 "Missing token".
Proof.
  destruct (authorization_scheme "bEaReR " "tok-alice" "Bearer" 1500 Sample.db)
    as [H1 H2].
  split; [apply H1; reflexivity | apply H2; simpl; lia].
Defined.

(** ** Sessions that lack a field *)

(** X14. A session stored without [expires_at] counts as expiring at time
    0: at every later time its token is refused with the 401 "Invalid or
    expired token". *)
Theorem session_without_expiry (d : Database) (tok : string) (sess : document)
    (t : Q) :
  Mongo.find_one [("token", VStr tok)] (coll d "session") = Some sess ->
  get sess "expires_at" = None ->
  (0 < t)%Q ->
  get_current_retailer (Some ("Bearer " ++ tok)) t (Some d)
  = HTTPException 401 "Invalid or expired token".
Proof.
  intros Hf He Ht. rewrite bearer_header, Hf, He.
  change (as_number (default (VInt 0) None)) with (Some 0%Q). cbv beta iota.
  now rewrite (proj2 (lt_num_true _ _) Ht).
Qed.

Lemma session_without_expiry_witness :
  get_current_retailer (Some ("Bearer " ++ "no-expiry")) 1 (Some Sample2.odd_sessions)
  = HTTPException 401 "Invalid or expired token".
Proof.
  apply (session_without_expiry Sample2.odd_sessions "no-expiry"
           (Doc Sample.id_session (list_to_map [("token", VStr "no-expiry");
              ("retailer_id", VStr "650000000000000000000001")]))).
  - vm_compute. reflexivity.
  - vm_compute. reflexivity.
  - reflexivity.
Defined.

(** X15. A live session whose [retailer_id] is missing, or is a string
    that [ObjectId] rejects (not 24 characters long, or 24 characters that
    [bytes.fromhex] does not read), does not give a 401: the call raises
    [KeyError], respectively [InvalidId], which the caller sees as a 500.
    A string of 24 characters that [bytes.fromhex] reads as fewer than
    twelve bytes (hexadecimal digits and white space) is accepted by
    [ObjectId] and is the identifier of no retailer: the 401 "Retailer not
    found". *)
Theorem session_with_bad_retailer_raises (d : Database) (tok : string)
    (sess : document) (t : Q) :
  Mongo.find_one [("token", VStr tok)] (coll d "session") = Some sess ->
  Spec.live sess t ->
  let r := get_current_retailer (Some ("Bearer " ++ tok)) t (Some d) in
  (get sess "retailer_id" = None -> r = Raise "KeyError")
  /\ (forall rid, get sess "retailer_id" = Some (VStr rid) ->
        Bson.make rid = None -> r = Raise "InvalidId")
  /\ (forall rid bs, get sess "retailer_id" = Some (VStr rid) ->
        Bson.make rid = Some (Bson.Short bs) ->
        r = HTTPException 401 "Retailer not found")
  /\ ((get sess "retailer_id" = None
       \/ exists rid, get sess "retailer_id" = Some (VStr rid)
                      /\ Bson.make rid = None) ->
        status_of r = 500%Z).
Proof.
  intros Hf (e & He & Hle) r. subst r. rewrite bearer_header, Hf, He.
  rewrite (proj2 (lt_num_false _ _) Hle).
  split; [|split; [|split]].
  - now intros ->.
  - intros rid -> Hm. unfold object_id. now rewrite Hm.
  - intros rid bs -> Hm. unfold object_id. rewrite Hm. simpl.
    now rewrite find_one_short.
  - intros [-> | (rid & -> & Hm)]; [reflexivity|].
    unfold object_id. now rewrite Hm.
Qed.

Lemma session_with_bad_retailer_raises_witness :
  get_current_retailer (Some ("Bearer " ++ "bad-retailer")) 1500
    (Some Sample2.odd_sessions) = Raise "InvalidId"
  /\ status_of (get_current_retailer (Some ("Bearer " ++ "bad-retailer")) 1500
                  (Some Sample2.odd_sessions)) = 500%Z
  /\ get_current_retailer (Some ("Bearer " ++ "spaced-retailer")) 1500
       (Some Sample2.odd_sessions) = HTTPException 401 "Retailer not found".
Proof.
  destruct (session_with_bad_retailer_raises Sample2.odd_sessions "bad-retailer"
              (Doc Sample.id_order (list_to_map [("token", VStr "bad-retailer");
                 ("retailer_id", VStr "alice"); ("expires_at", VFloat 5000)]))
              1500) as (_ & H2 & _ & H4).
  - vm_compute. reflexivity.
  - exists 5000%Q. split; [reflexivity|]. unfold Qle. simpl. lia.
  - split; [|split].
    + apply (H2 "alice"); reflexivity.
    + apply H4. right. exists "alice". split; reflexivity.
    + destruct (session_with_bad_retailer_raises Sample2.odd_sessions
                  "spaced-retailer"
                  (Doc Sample.id_bob (list_to_map [("token", VStr "spaced-retailer");
                     ("retailer_id", VStr "6500000000000000000001  ");
                     ("expires_at", VFloat 5000)]))
                  1500) as (_ & _ & H3 & _).
      * vm_compute. reflexivity.
      * exists 5000%Q. split; [reflexivity|]. unfold Qle. simpl. lia.
      * apply (H3 "6500000000000000000001  "
                 [x65; x00; x00; x00; x00; x00; x00; x00; x00; x00; x01]);
          reflexivity.
Defined.

(** ** Leads *)

(** X16. [create_lead] needs no session: with a database it appends one
    document to the leads, holding the six fields of the request as they
    were sent, and returns the text of its identifier, the other
    collections staying as they are; without a database the exception
    becomes a 500 whose body is an [HTTPException], not a raw exception. *)
Theorem create_lead_stores_lead (e : env) (lead : LeadIn.t) (d : Database) :
  (exists d' new,
     handle e (PostLead lead) (Some d)
       = (Ok (StatusOut "ok" (Some (Bson.str (oid e)))), Some d')
     /\ coll d' "lead" = (coll d "lead" ++ [new])%list
     /\ _id new = oid e
     /\ get new "name" = Some (VStr (LeadIn.name lead))
     /\ get new "email" = Some (VStr (LeadIn.email lead))
     /\ get new "role" = Some (VStr (LeadIn.role lead))
     /\ get new "company" = Some (dump_opt (LeadIn.company lead))
     /\ get new "message" = Some (dump_opt (LeadIn.message lead))
     /\ get new "consent" = Some (VBool (LeadIn.consent lead))
     /\ (forall name, name <> "lead" -> coll d' name = coll d name))
  /\ (exists detail,
        handle e (PostLead lead) None = (HTTPException 500 detail, None)).
Proof.
  split.
  - do 2 eexists. split; [reflexivity|].
    split; [now rewrite coll_insert, decide_True|].
    do 7 (split; [reflexivity|]).
    intros name Hn. rewrite coll_insert. now rewrite decide_False by congruence.
  - eexists. reflexivity.
Qed.

(** ** The health check *)

Lemma error_message_length (err : Py.str) :
  length (warning_sign ++ Py.text "Connected but Error: " ++ take 50 err)%list
  = 25 + Nat.min 50 (length err).
Proof.
  rewrite !length_app, length_take.
  change (length warning_sign) with 4.
  change (length (Py.text "Connected but Error: ")) with 21. lia.
Qed.

Lemma error_message_bound (err : Py.str) :
  length (warning_sign ++ Py.text "Connected but Error: " ++ take 50 err)%list <= 75.
Proof. rewrite error_message_length. lia. Qed.

(** X17. The health check always answers: it reports "Connected" exactly
    when there is a database handle; it lists at most ten collections, the
    first ten of the listing in their order; and when the listing fails it
    still answers, with the first fifty characters of the error text (all
    of it when it has at most fifty) after the 25 characters of the
    message, and no collection. *)
Theorem health_check_bounds (url : option string) (db : option handle_view) :
  let r := test_database url db in
  Health.backend r = "✅ Running"
  /\ length (Health.collections r) <= 10
  /\ (Health.connection_status r = "Connected" <-> db <> None)
  /\ (forall h names, db = Some h -> listing h = inr names ->
        Health.collections r `prefix_of` names
        /\ (length names <= 10 -> Health.collections r = names)
        /\ Health.database r = (check_mark ++ Py.text "Connected & Working")%list)
  /\ (forall h err, db = Some h -> listing h = inl err ->
        Health.collections r = []
        /\ Health.database r
           = (warning_sign ++ Py.text "Connected but Error: " ++ take 50 err)%list
        /\ take 50 err `prefix_of` err
        /\ (length err <= 50 -> take 50 err = err)
        /\ length (Health.database r) = 25 + Nat.min 50 (length err)
        /\ length (Health.database r) <= 75).
Proof.
  intros r. subst r. unfold test_database.
  destruct db as [h|]; [destruct (listing h) as [err|names] eqn:El|]; simpl.
  - split; [reflexivity|]. split; [lia|]. split; [split; congruence|].
    split; [intros h' names [= <-]; congruence|].
    intros h' err' [= <-] E. rewrite El in E. injection E as <-.
    split; [reflexivity|]. split; [reflexivity|].
    split; [apply prefix_take|]. split; [intros Hn; now apply take_ge|].
    split; [exact (error_message_length err) | exact (error_message_bound err)].
  - split; [reflexivity|]. split; [rewrite length_take; lia|].
    split; [split; congruence|]. split.
    + intros h' names' [= <-] E. rewrite El in E. injection E as <-.
      split; [apply prefix_take|]. split; [|reflexivity].
      intros Hn. now apply take_ge.
    + intros h' err [= <-]. congruence.
  - split; [reflexivity|]. split; [lia|]. split; [split; [discriminate | congruence]|].
    split; intros; discriminate.
Qed.

(** The messages of the health check as code points and as the UTF-8 text
    of the source; an error text of sixty characters of two bytes each is
    cut to fifty characters, one hundred bytes. *)
Example health_check_texts :
  Py.encode (warning_sign ++ Py.text "Connected but Error: ")%list
    = Some "⚠️  Connected but Error: "
  /\ Py.encode (check_mark ++ Py.text "Connected & Working")%list
     = Some "✅ Connected & Working"
  /\ Py.encode (warning_sign ++ Py.text "Available but not initialized")%list
     = Some "⚠️  Available but not initialized"
  /\ (let r := test_database None
                 (Some {| db_name := None; listing := inl (repeat 233%N 60) |}) in
      length (Health.database r) = 75
      /\ option_map String.length (Py.encode (Health.database r)) = Some 129).
Proof. repeat split; vm_compute; reflexivity. Qed.


(** ** Validity over time *)

(** X19. Expiry is monotone in time, in one database: a header accepted at
    some time is accepted, for the same retailer, at every earlier time;
    and a header refused with the 401 "Invalid or expired token" is refused
    in the same way at every later time. *)
Theorem validity_monotone (d : Database) (a : option string) (t t' : Q) :
  (t' <= t)%Q ->
  (forall cur, get_current_retailer a t (Some d) = Ok cur ->
               get_current_retailer a t' (Some d) = Ok cur)
  /\ (get_current_retailer a t' (Some d)
        = HTTPException 401 "Invalid or expired token" ->
      get_current_retailer a t (Some d)
        = HTTPException 401 "Invalid or expired token").
Proof.
  intros Hle. rewrite !header_bearer.
  destruct (Spec.bearer a) as [tok|]; [|split; [discriminate | trivial]].
  rewrite !bearer_header.
  destruct (Mongo.find_one [("token", VStr tok)] (coll d "session")) as [sess|];
    [|split; [discriminate | trivial]].
  destruct (as_number _) as [e|]; [|split; [discriminate | trivial]].
  destruct (lt_num e t) eqn:E1, (lt_num e t') eqn:E2;
    try (split; [discriminate | trivial]); try (split; trivial).
  - apply lt_num_true in E2. apply lt_num_false in E1.
    exfalso. apply (Qlt_irrefl e).
    eapply Qlt_le_trans; [exact E2|]. eapply Qle_trans; eassumption.
  - apply lt_num_true in E2. apply lt_num_false in E1.
    exfalso. apply (Qlt_irrefl e).
    eapply Qlt_le_trans; [exact E2|]. eapply Qle_trans; eassumption.
Qed.

Lemma validity_monotone_witness :
  (forall cur,
      get_current_retailer (Some "Bearer tok-alice") 2000 (Some Sample.db) = Ok cur ->
      get_current_retailer (Some "Bearer tok-alice") 1500 (Some Sample.db) = Ok cur)
  /\ (get_current_retailer (Some "Bearer tok-alice") 1500 (Some Sample.db)
        = HTTPException 401 "Invalid or expired token" ->
      get_current_retailer (Some "Bearer tok-alice") 2000 (Some Sample.db)
        = HTTPException 401 "Invalid or expired token").
Proof.
  apply (validity_monotone Sample.db (Some "Bearer tok-alice") 2000 1500).
  unfold Qle. simpl. lia.
Defined.
